(** * spherescript: a shallow embedding of the sphere data-set script

    The script [spherescript.py] drives a 3D host application through its
    scripting interface: it empties the scene, builds a translucent sphere
    with an outline shell and two hoops, exports the meshes, renders four
    views and writes a CSV label file.

    The embedding has three layers.
    - [Geometry]: vectors, axis rotations and Euler triples over the reals
      (the script's floats read as exact numbers).
    - The host store: the name-indexed object collection, the mesh and
      material data blocks objects refer to, the files written, and the
      host operators the script calls, each a function on that store.
    - The script: every [def] of the source and its top-level statements,
      written in an error monad over the store. *)

From Stdlib Require Import Reals Lra Ascii String.
From stdpp Require Import gmap strings stringmap list.

Local Open Scope string_scope.

(** ** Geometry *)

Module Geometry.

Local Open Scope R_scope.

Definition vec3 : Type := R * R * R.

(** An orientation is kept as the images of the three unit vectors. *)
Definition frame : Type := vec3 * vec3 * vec3.

Inductive Axis := AxX | AxY | AxZ.

Definition ex : vec3 := (1, 0, 0).
Definition ey : vec3 := (0, 1, 0).
Definition ez : vec3 := (0, 0, 1).
Definition id_frame : frame := (ex, ey, ez).

Definition vadd (u v : vec3) : vec3 :=
  let '(a, b, c) := u in let '(x, y, z) := v in (a + x, b + y, c + z).

Definition vsub (u v : vec3) : vec3 :=
  let '(a, b, c) := u in let '(x, y, z) := v in (a - x, b - y, c - z).


(** [math.radians] *)
Definition radians (deg : R) : R := deg * PI / 180.

(** Rotation of a vector by [a] radians about a world axis through the
    origin. *)
Definition rot (ax : Axis) (a : R) (v : vec3) : vec3 :=
  let '(x, y, z) := v in
  match ax with
  | AxX => (x, cos a * y - sin a * z, sin a * y + cos a * z)
  | AxY => (cos a * x + sin a * z, y, - sin a * x + cos a * z)
  | AxZ => (cos a * x - sin a * y, sin a * x + cos a * y, z)
  end.

(** The same rotation about an axis through the point [c]. *)
Definition rot_about (c : vec3) (ax : Axis) (a : R) (v : vec3) : vec3 :=
  vadd c (rot ax a (vsub v c)).

Definition rot_frame (ax : Axis) (a : R) (f : frame) : frame :=
  let '(u, v, w) := f in (rot ax a u, rot ax a v, rot ax a w).

(** The orientation an XYZ Euler triple stands for: the X component is
    applied first, then Y, then Z. *)
Definition euler_frame (e : vec3) : frame :=
  let '(a, b, c) := e in
  rot_frame AxZ c (rot_frame AxY b (rot_frame AxX a id_frame)).


End Geometry.

Import Geometry.

(** ** The host store *)

(** *** Data blocks *)

Inductive BlendMethod := OPAQUE | BLEND.

Definition rgba : Type := R * R * R * R.

(** A material: the node switch, the two inputs of its principled shader
    the script writes, and the two viewport blend settings. *)
Record Material := mkMaterial {
  use_nodes : bool;
  base_color : rgba;
  alpha : R;
  blend_method : BlendMethod;
  show_transparent_back : bool }.

(** What the host creates for [bpy.data.materials.new]. *)
Definition new_material : Material :=
  {| use_nodes := false;
     base_color := (0.8, 0.8, 0.8, 1)%R;
     alpha := 1%R;
     blend_method := OPAQUE;
     show_transparent_back := true |}.

Inductive Shape :=
| UVSphere (radius : R) (segments ring_count : nat)
| Torus (major_radius minor_radius : R) (major_segments minor_segments : nat).

(** A mesh data block. Face normals are kept as one bit (every face of a
    primitive points outwards; [flip_normals] on a fully selected mesh
    turns them all). [mesh_materials] are the material slots, holding
    material names. [other_users] counts the users of the block that are
    not objects of the scene. *)
Record Mesh := mkMesh {
  shape : Shape;
  normals_flipped : bool;
  mesh_materials : list string;
  other_users : nat }.

Inductive LightType := POINT | SUN | SPOT | AREA.

(** [obj.data]: meshes are shared blocks referred to by key; camera and
    light settings are kept in place. *)
Inductive ObData :=
| DMesh (k : positive)
| DCamera
| DLight (ty : LightType) (energy : R).

Inductive ObjType := MESH | CAMERA | LIGHT.

Global Instance ObjType_eq_dec : EqDecision ObjType.
Proof. solve_decision. Defined.

Definition type_of_data (d : ObData) : ObjType :=
  match d with
  | DMesh _ => MESH
  | DCamera => CAMERA
  | DLight _ _ => LIGHT
  end.

(** A scene object. Its name is its key in [objects]. [rotation] is the
    frame that [rotation_euler] denotes; [props] are the custom
    properties written as [obj["key"] = value]. *)
Record Object := mkObject {
  data : ObData;
  location : vec3;
  rotation : frame;
  scale : vec3;
  parent : option string;
  props : gmap string string;
  select : bool;
  show_in_front : bool;
  display_type : string }.

Definition obj_type (o : Object) : ObjType := type_of_data (data o).

(** The transform of an object. *)
Definition transform (o : Object) : vec3 * frame * vec3 :=
  (location o, rotation o, scale o).

Definition new_object (d : ObData) (loc : vec3) (rot : frame) : Object :=
  {| data := d; location := loc; rotation := rot; scale := (1, 1, 1)%R;
     parent := None; props := ∅; select := true;
     show_in_front := false; display_type := "TEXTURED" |}.

Definition set_data (d : ObData) (o : Object) : Object :=
  {| data := d; location := location o; rotation := rotation o;
     scale := scale o; parent := parent o; props := props o;
     select := select o; show_in_front := show_in_front o;
     display_type := display_type o |}.

Definition set_location (l : vec3) (o : Object) : Object :=
  {| data := data o; location := l; rotation := rotation o;
     scale := scale o; parent := parent o; props := props o;
     select := select o; show_in_front := show_in_front o;
     display_type := display_type o |}.

Definition set_rotation (f : frame) (o : Object) : Object :=
  {| data := data o; location := location o; rotation := f;
     scale := scale o; parent := parent o; props := props o;
     select := select o; show_in_front := show_in_front o;
     display_type := display_type o |}.

Definition set_scale (v : vec3) (o : Object) : Object :=
  {| data := data o; location := location o; rotation := rotation o;
     scale := v; parent := parent o; props := props o;
     select := select o; show_in_front := show_in_front o;
     display_type := display_type o |}.

Definition set_parent (p : option string) (o : Object) : Object :=
  {| data := data o; location := location o; rotation := rotation o;
     scale := scale o; parent := p; props := props o;
     select := select o; show_in_front := show_in_front o;
     display_type := display_type o |}.

Definition set_prop (k v : string) (o : Object) : Object :=
  {| data := data o; location := location o; rotation := rotation o;
     scale := scale o; parent := parent o; props := <[k := v]> (props o);
     select := select o; show_in_front := show_in_front o;
     display_type := display_type o |}.

Definition set_select (b : bool) (o : Object) : Object :=
  {| data := data o; location := location o; rotation := rotation o;
     scale := scale o; parent := parent o; props := props o;
     select := b; show_in_front := show_in_front o;
     display_type := display_type o |}.

Definition set_show_in_front (b : bool) (o : Object) : Object :=
  {| data := data o; location := location o; rotation := rotation o;
     scale := scale o; parent := parent o; props := props o;
     select := select o; show_in_front := b;
     display_type := display_type o |}.

Definition set_display_type (d : string) (o : Object) : Object :=
  {| data := data o; location := location o; rotation := rotation o;
     scale := scale o; parent := parent o; props := props o;
     select := select o; show_in_front := show_in_front o;
     display_type := d |}.

(** *** Files, operator history and the store *)

Inductive Mode := OBJECT_MODE | EDIT_MODE.

Inductive SelAction := SELECT | DESELECT.

(** A written file: text, an exported mesh file (the exported objects
    with the mesh blocks and materials of the scene), or a rendered image
    (the objects as they stood when the still was taken, and the camera
    it was taken through). *)
Inductive File :=
| TextFile (content : string)
| ObjFile (exported : gmap string Object) (with_materials : bool)
| PngFile (shown : gmap string Object) (camera : option string).

(** One entry per operator call ([bpy.ops....]), in call order. *)
Inductive Op :=
| OpObjectSelectAll (action : SelAction)
| OpObjectDelete
| OpModeSet (m : Mode)
| OpMeshSelectAll (action : SelAction)
| OpFlipNormals
| OpSphereAdd
| OpTorusAdd
| OpCameraAdd
| OpLightAdd
| OpExportObj (filepath : string)
| OpRotate (orient_axis : Axis) (value : R)
| OpRender.

Record State := mkState {
  objects : gmap string Object;       (* bpy.data.objects *)
  meshes : gmap positive Mesh;        (* bpy.data.meshes *)
  materials : gmap string Material;   (* bpy.data.materials *)
  active : option string;             (* bpy.context.active_object *)
  mode : Mode;
  cursor : vec3;                      (* where primitives are added *)
  scene_camera : option string;       (* bpy.context.scene.camera *)
  render_filepath : string;
  render_format : string;
  files : gmap string File;
  oplog : list Op }.

Definition upd_objects (f : gmap string Object → gmap string Object) (s : State) : State :=
  {| objects := f (objects s); meshes := meshes s; materials := materials s;
     active := active s; mode := mode s; cursor := cursor s;
     scene_camera := scene_camera s; render_filepath := render_filepath s;
     render_format := render_format s; files := files s; oplog := oplog s |}.

Definition upd_meshes (f : gmap positive Mesh → gmap positive Mesh) (s : State) : State :=
  {| objects := objects s; meshes := f (meshes s); materials := materials s;
     active := active s; mode := mode s; cursor := cursor s;
     scene_camera := scene_camera s; render_filepath := render_filepath s;
     render_format := render_format s; files := files s; oplog := oplog s |}.

Definition upd_materials (f : gmap string Material → gmap string Material) (s : State) : State :=
  {| objects := objects s; meshes := meshes s; materials := f (materials s);
     active := active s; mode := mode s; cursor := cursor s;
     scene_camera := scene_camera s; render_filepath := render_filepath s;
     render_format := render_format s; files := files s; oplog := oplog s |}.

Definition with_active (a : option string) (s : State) : State :=
  {| objects := objects s; meshes := meshes s; materials := materials s;
     active := a; mode := mode s; cursor := cursor s;
     scene_camera := scene_camera s; render_filepath := render_filepath s;
     render_format := render_format s; files := files s; oplog := oplog s |}.

Definition with_mode (m : Mode) (s : State) : State :=
  {| objects := objects s; meshes := meshes s; materials := materials s;
     active := active s; mode := m; cursor := cursor s;
     scene_camera := scene_camera s; render_filepath := render_filepath s;
     render_format := render_format s; files := files s; oplog := oplog s |}.

Definition with_scene_camera (c : option string) (s : State) : State :=
  {| objects := objects s; meshes := meshes s; materials := materials s;
     active := active s; mode := mode s; cursor := cursor s;
     scene_camera := c; render_filepath := render_filepath s;
     render_format := render_format s; files := files s; oplog := oplog s |}.

Definition with_render_filepath (p : string) (s : State) : State :=
  {| objects := objects s; meshes := meshes s; materials := materials s;
     active := active s; mode := mode s; cursor := cursor s;
     scene_camera := scene_camera s; render_filepath := p;
     render_format := render_format s; files := files s; oplog := oplog s |}.

Definition with_render_format (p : string) (s : State) : State :=
  {| objects := objects s; meshes := meshes s; materials := materials s;
     active := active s; mode := mode s; cursor := cursor s;
     scene_camera := scene_camera s; render_filepath := render_filepath s;
     render_format := p; files := files s; oplog := oplog s |}.

Definition upd_files (f : gmap string File → gmap string File) (s : State) : State :=
  {| objects := objects s; meshes := meshes s; materials := materials s;
     active := active s; mode := mode s; cursor := cursor s;
     scene_camera := scene_camera s; render_filepath := render_filepath s;
     render_format := render_format s; files := f (files s); oplog := oplog s |}.

Definition log_op (op : Op) (s : State) : State :=
  {| objects := objects s; meshes := meshes s; materials := materials s;
     active := active s; mode := mode s; cursor := cursor s;
     scene_camera := scene_camera s; render_filepath := render_filepath s;
     render_format := render_format s; files := files s;
     oplog := oplog s ++ [op] |}.

(** *** Exceptions and the script monad *)

Inductive Exn :=
| KeyError (key : string)
| AttributeError (attr : string)
| IndexError
| RuntimeError (msg : string)
| ReferenceError (name : string).

Inductive Res (A : Type) :=
| Ok (a : A) (s : State)
| Raise (e : Exn).
Global Arguments Ok {A} a s.
Global Arguments Raise {A} e.

(** A statement runs on the store and either finishes with a value and the
    new store, or raises; a raised exception ends the script. *)
Definition M (A : Type) : Type := State → Res A.

Global Instance M_ret : MRet M := λ A a s, Ok a s.
Global Instance M_bind : MBind M := λ A B f m s,
  match m s with
  | Ok a s' => f a s'
  | Raise e => Raise e
  end.

Definition raise {A} (e : Exn) : M A := λ _, Raise e.
Definition get : M State := λ s, Ok s s.
Definition modify (f : State → State) : M unit := λ s, Ok tt (f s).

(** [for x in l: body] *)
Fixpoint for_each {A} (l : list A) (body : A → M unit) : M unit :=
  match l with
  | [] => mret tt
  | x :: l' => body x ;; for_each l' body
  end.

(** *** What the script does not fix about its host

    [home] is the user's home directory; [pivot] the point rotations of a
    selection turn about; [camera_defname] and [light_defname] the names
    the host proposes for a newly added camera and a newly added area
    light. *)
Record Host := mkHost {
  home : string;
  pivot : vec3;
  camera_defname : string;
  light_defname : string }.

(** *** Host operations on objects *)

Definition get_object (n : string) : M Object := λ s,
  match objects s !! n with
  | Some o => Ok o s
  | None => Raise (ReferenceError n)
  end.

(** An attribute assignment [obj.attr = v]. *)
Definition update_object (n : string) (f : Object → Object) : M unit :=
  _ ← get_object n; modify (upd_objects (alter f n)).

(** [name in bpy.data.objects] *)
Definition has_object (n : string) : M bool := λ s,
  Ok (bool_decide (is_Some (objects s !! n))) s.

(** [bpy.data.objects[name]] *)
Definition object_by_name (n : string) : M string := λ s,
  match objects s !! n with
  | Some _ => Ok n s
  | None => Raise (KeyError n)
  end.

(** [bpy.context.active_object], read to use the object. *)
Definition active_object : M string := λ s,
  match active s with
  | Some n => Ok n s
  | None => Raise (AttributeError "NoneType")
  end.

Definition selects (a : SelAction) : bool :=
  match a with SELECT => true | DESELECT => false end.

(** [bpy.ops.object.select_all(action=a)] *)
Definition object_select_all (a : SelAction) : M unit :=
  modify (λ s, log_op (OpObjectSelectAll a)
                 (upd_objects (fmap (set_select (selects a))) s)).




(** The store after an object [o] entered the scene under the name [n]:
    it is the only selected object and the active one. *)
Definition added (n : string) (o : Object) (op : Op) (s : State) : State :=
  log_op op
    (with_active (Some n)
      (upd_objects (λ objs, <[n := o]> (set_select false <$> objs)) s)).

(** A new object enters the scene under the first free name after
    [base]. *)
Definition add_object (base : string) (o : Object) (op : Op) : M string := λ s,
  let n := fresh_string base (objects s) in
  Ok n (added n o op s).

Definition retarget (old new : string) (r : option string) : option string :=
  match r with
  | Some p => if decide (p = old) then Some new else Some p
  | None => None
  end.

Definition reparent (old new : string) (o : Object) : Object :=
  set_parent (retarget old new (parent o)) o.

(** [obj.name = new]: the object moves to the first free name after [new]
    (its own old name counts as free); references follow it. The name it
    ends up with is returned. *)
Definition set_name (n new : string) : M string := λ s,
  match objects s !! n with
  | None => Raise (ReferenceError n)
  | Some o =>
      let rest := delete n (objects s) in
      let n' := fresh_string new rest in
      Ok n'
        (with_active (retarget n n' (active s))
          (with_scene_camera (retarget n n' (scene_camera s))
            (upd_objects
               (λ _, <[n' := o]> (reparent n n' <$> rest))
               s)))
  end.

(** [obj.copy()]: a second object with the same fields, the same data
    reference included. *)
Definition copy_object (n : string) : M string := λ s,
  match objects s !! n with
  | None => Raise (ReferenceError n)
  | Some o =>
      let n' := fresh_string n (objects s) in
      Ok n' (upd_objects <[n' := o]> s)
  end.

(** [bpy.context.collection.objects.link(obj)]: [objects] is the scene
    the script works in, so a copy is part of it from the start. *)
Definition link_object (n : string) : M unit :=
  _ ← get_object n; mret tt.

(** [bpy.context.view_layer.objects.active = obj] *)
Definition set_active (n : string) : M unit :=
  _ ← get_object n; modify (with_active (Some n)).

(** [obj.select_set(b)] *)
Definition select_set (n : string) (b : bool) : M unit :=
  update_object n (set_select b).

(** *** Host operations on mesh blocks *)

Definition new_mesh (m : Mesh) : M positive := λ s,
  let k := fresh (dom (meshes s)) in Ok k (upd_meshes <[k := m]> s).

Definition get_mesh (k : positive) : M Mesh := λ s,
  match meshes s !! k with
  | Some m => Ok m s
  | None => Raise (ReferenceError "mesh")
  end.





(** A duplicated mesh block. *)
Definition copy_of (m : Mesh) : Mesh :=
  {| shape := shape m; normals_flipped := normals_flipped m;
     mesh_materials := mesh_materials m; other_users := 0 |}.

(** [obj.data.copy()]: a mesh is duplicated into a new block, which has
    no user yet. *)
Definition copy_data (d : ObData) : M ObData :=
  match d with
  | DMesh k =>
      m ← get_mesh k;
      k' ← new_mesh (copy_of m);
      mret (DMesh k')
  | _ => mret d
  end.

Definition set_normals_flipped (b : bool) (m : Mesh) : Mesh :=
  {| shape := shape m; normals_flipped := b;
     mesh_materials := mesh_materials m; other_users := other_users m |}.

Definition set_mesh_materials (l : list string) (m : Mesh) : Mesh :=
  {| shape := shape m; normals_flipped := normals_flipped m;
     mesh_materials := l; other_users := other_users m |}.

(** The mesh being edited: edit mode works on the mesh of the active
    object. *)
Definition edit_mesh : M positive :=
  s ← get;
  match mode s, active s with
  | EDIT_MODE, Some a =>
      o ← get_object a;
      match data o with
      | DMesh k => mret k
      | _ => raise (RuntimeError "context is incorrect")
      end
  | _, _ => raise (RuntimeError "context is incorrect")
  end.

(** [bpy.ops.object.mode_set(mode=m)]: edit mode needs an active mesh
    object. *)
Definition mode_set (m : Mode) : M unit :=
  match m with
  | OBJECT_MODE => modify (λ s, log_op (OpModeSet m) (with_mode m s))
  | EDIT_MODE =>
      s ← get;
      match active s with
      | Some a =>
          o ← get_object a;
          match data o with
          | DMesh _ => modify (λ s, log_op (OpModeSet m) (with_mode m s))
          | _ => raise (RuntimeError "context is incorrect")
          end
      | None => raise (RuntimeError "context is incorrect")
      end
  end.

(** [bpy.ops.mesh.select_all(action=a)]: face selection is not part of
    the store; the call is recorded. *)
Definition mesh_select_all (a : SelAction) : M unit :=
  _ ← edit_mesh; modify (log_op (OpMeshSelectAll a)).

(** [bpy.ops.mesh.flip_normals()] with every face selected. *)
Definition mesh_flip_normals : M unit :=
  k ← edit_mesh;
  modify (λ s, log_op OpFlipNormals
                 (upd_meshes (alter (λ m, set_normals_flipped (negb (normals_flipped m)) m) k) s)).

(** [obj.data] of a mesh object. *)
Definition data_mesh (n : string) : M positive :=
  o ← get_object n;
  match data o with
  | DMesh k => mret k
  | _ => raise (AttributeError "materials")
  end.

(** [obj.data.materials] *)
Definition data_materials (n : string) : M (list string) :=
  k ← data_mesh n; m ← get_mesh k; mret (mesh_materials m).

(** A Python sequence used as a condition. *)
Definition truthy {A} (l : list A) : bool :=
  match l with [] => false | _ => true end.

(** [obj.data.materials[i] = mat] *)
Definition materials_set (n : string) (i : nat) (mat : string) : M unit :=
  k ← data_mesh n; m ← get_mesh k;
  if decide (i < length (mesh_materials m))
  then modify (upd_meshes (alter (set_mesh_materials (<[i := mat]> (mesh_materials m))) k))
  else raise IndexError.

(** [obj.data.materials.append(mat)] *)
Definition materials_append (n : string) (mat : string) : M unit :=
  k ← data_mesh n; m ← get_mesh k;
  modify (upd_meshes (alter (set_mesh_materials (mesh_materials m ++ [mat])) k)).

(** *** Host operations on materials *)

(** [bpy.data.materials.new(name)] *)
Definition materials_new (name : string) : M string := λ s,
  let n := fresh_string name (materials s) in
  Ok n (upd_materials <[n := new_material]> s).

Definition update_material (n : string) (f : Material → Material) : M unit := λ s,
  match materials s !! n with
  | Some _ => Ok tt (upd_materials (alter f n) s)
  | None => Raise (ReferenceError n)
  end.

Definition set_use_nodes (b : bool) (m : Material) : Material :=
  {| use_nodes := b; base_color := base_color m; alpha := alpha m;
     blend_method := blend_method m;
     show_transparent_back := show_transparent_back m |}.

Definition set_base_color (c : rgba) (m : Material) : Material :=
  {| use_nodes := use_nodes m; base_color := c; alpha := alpha m;
     blend_method := blend_method m;
     show_transparent_back := show_transparent_back m |}.

Definition set_alpha (a : R) (m : Material) : Material :=
  {| use_nodes := use_nodes m; base_color := base_color m; alpha := a;
     blend_method := blend_method m;
     show_transparent_back := show_transparent_back m |}.

Definition set_blend_method (b : BlendMethod) (m : Material) : Material :=
  {| use_nodes := use_nodes m; base_color := base_color m; alpha := alpha m;
     blend_method := b;
     show_transparent_back := show_transparent_back m |}.

Definition set_show_transparent_back (b : bool) (m : Material) : Material :=
  {| use_nodes := use_nodes m; base_color := base_color m; alpha := alpha m;
     blend_method := blend_method m;
     show_transparent_back := b |}.

(** *** Paths and text files *)

Definition starts_with_slash (p : string) : bool :=
  match p with
  | String c _ => bool_decide (c = "/"%char)
  | EmptyString => false
  end.

Fixpoint ends_with_slash (p : string) : bool :=
  match p with
  | EmptyString => false
  | String c EmptyString => bool_decide (c = "/"%char)
  | String _ r => ends_with_slash r
  end.

(** [os.path.join(a, b)] *)
Definition path_join (a b : string) : string :=
  if starts_with_slash b then b
  else if bool_decide (a = "") || ends_with_slash a then a +:+ b
  else a +:+ "/" +:+ b.

(** [p.rstrip("/")] *)
Fixpoint rstrip_slash (p : string) : string :=
  match p with
  | EmptyString => EmptyString
  | String c r =>
      match rstrip_slash r with
      | EmptyString => if bool_decide (c = "/"%char) then EmptyString else String c EmptyString
      | r' => String c r'
      end
  end.

(** [os.path.expanduser(p)] for the current user, whose home directory is
    [h]; a path that names another user is left alone. *)
Definition expanduser (h p : string) : string :=
  match p with
  | String "~" rest =>
      if bool_decide (rest = "") || starts_with_slash rest
      then match rstrip_slash h +:+ rest with
           | EmptyString => "/"
           | q => q
           end
      else p
  | _ => p
  end.

(** [open(path, "w")]: the file is created or emptied. The path stands
    for the file handle. *)
Definition open_w (path : string) : M string :=
  modify (upd_files <[path := TextFile ""]>);; mret path.

(** [f.write(text)] *)
Definition file_write (f : string) (text : string) : M unit := λ s,
  match files s !! f with
  | Some (TextFile c) => Ok tt (upd_files <[f := TextFile (c +:+ text)]> s)
  | _ => Raise (RuntimeError "not a text file open for writing")
  end.

(** *** Operators that build, export, turn and render *)


(** [bpy.ops.mesh.primitive_torus_add(major_radius, minor_radius,
    major_segments, minor_segments)]: no location is given, the torus is
    put at the cursor, unrotated. *)
Definition primitive_torus_add (major_radius minor_radius : R)
    (major_segments minor_segments : nat) : M unit :=
  k ← new_mesh {| shape := Torus major_radius minor_radius major_segments minor_segments;
                  normals_flipped := false; mesh_materials := [];
                  other_users := 0 |};
  s ← get;
  _ ← add_object "Torus" (new_object (DMesh k) (cursor s) id_frame) OpTorusAdd;
  mret tt.

(** The energy of a light as the host creates it. *)
Definition default_energy : R := 10.

(** [light.data.energy = e] *)
Definition set_light_energy (n : string) (e : R) : M unit :=
  o ← get_object n;
  match data o with
  | DLight ty _ => update_object n (set_data (DLight ty e))
  | _ => raise (AttributeError "energy")
  end.

(** [bpy.ops.export_scene.obj(filepath, use_selection, use_materials)] *)
Definition export_scene_obj (filepath : string) (use_selection use_materials : bool) : M unit :=
  modify (λ s,
    let objs := if use_selection
                then filter (λ kv, select kv.2 = true) (objects s)
                else objects s in
    log_op (OpExportObj filepath)
      (upd_files <[filepath := ObjFile objs use_materials]> s)).

(** [bpy.ops.render.render(write_still)]: a scene without a camera cannot
    be rendered. *)
Definition render_render (write_still : bool) : M unit :=
  s ← get;
  match scene_camera s with
  | Some _ =>
      modify (λ s, log_op OpRender
                (if write_still
                 then upd_files <[render_filepath s := PngFile (objects s) (scene_camera s)]> s
                 else s))
  | None => raise (RuntimeError "no camera found in scene")
  end.

Section Script.

Variable host : Host.

(** [bpy.ops.object.camera_add(location, rotation)] *)
Definition camera_add (loc rot : vec3) : M unit :=
  _ ← add_object (camera_defname host) (new_object DCamera loc (euler_frame rot)) OpCameraAdd;
  mret tt.

(** [bpy.ops.object.light_add(type, location)] *)
Definition light_add (ty : LightType) (loc : vec3) : M unit :=
  _ ← add_object (light_defname host) (new_object (DLight ty default_energy) loc id_frame) OpLightAdd;
  mret tt.

Definition rotate_object (ax : Axis) (value : R) (o : Object) : Object :=
  set_rotation (rot_frame ax value (rotation o))
    (set_location (rot_about (pivot host) ax value (location o)) o).

Definition turn (ax : Axis) (value : R) (o : Object) : Object :=
  if select o then rotate_object ax value o else o.

(** [bpy.ops.transform.rotate(value, orient_axis)]: every selected object
    is turned about the axis through the pivot. *)
Definition transform_rotate (value : R) (ax : Axis) : M unit :=
  modify (λ s, log_op (OpRotate ax value)
                 (upd_objects (fmap (turn ax value)) s)).

(** ** The script *)


Definition export_path : string := expanduser (home host) "~/Desktop/sphere_dataset/".


Definition RENDER_VIEWS : list (string * vec3) :=
  [ ("front", (0, 0, 0)%R);
    ("side", (0, radians 90, 0)%R);
    ("top", (radians 90, 0, 0)%R);
    ("3quarter", (radians 35, radians 40, 0)%R) ].


(** The value of [transparent] when a call leaves it out. *)
Definition transparent_default : bool := true.

Definition make_material (name : string) (col : rgba) (transparent : bool) : M string :=
  mat ← materials_new name;
  update_material mat (set_use_nodes true);;
  update_material mat (set_base_color col);;
  update_material mat (set_alpha (snd col));;
  (if transparent
   then update_material mat (set_blend_method BLEND);;
        update_material mat (set_show_transparent_back true)
   else mret tt);;
  mret mat.

Definition add_outline (obj : string) (thickness : R) : M string :=
  outline ← copy_object obj;
  o ← get_object obj;
  d ← copy_data (data o);
  update_object outline (set_data d);;
  link_object outline;;
  update_object outline (set_scale (1 + thickness, 1 + thickness, 1 + thickness)%R);;
  set_active outline;;
  mode_set EDIT_MODE;;
  mesh_select_all SELECT;;
  mesh_flip_normals;;
  mode_set OBJECT_MODE;;
  outline_mat ← make_material "outline_black" (0, 0, 0, 1)%R transparent_default;
  ms ← data_materials outline;
  (if truthy ms
   then materials_set outline 0 outline_mat
   else materials_append outline outline_mat);;
  update_object outline (set_show_in_front true);;
  update_object outline (set_display_type "SOLID");;
  outline ← set_name outline (obj +:+ "_outline");
  mret outline.

Definition add_hoop (radius thickness : R) (axis : string) : M string :=
  primitive_torus_add radius thickness 96 16;;
  hoop ← active_object;
  (if bool_decide (axis = "X")
   then update_object hoop (set_rotation (euler_frame (0, radians 90, 0)%R))
   else if bool_decide (axis = "Y")
   then update_object hoop (set_rotation (euler_frame (radians 90, 0, 0)%R))
   else mret tt);;
  hoop_mat ← make_material "hoop_black" (0, 0, 0, 1)%R transparent_default;
  ms ← data_materials hoop;
  (if truthy ms
   then materials_set hoop 0 hoop_mat
   else materials_append hoop hoop_mat);;
  hoop ← set_name hoop ("hoop_" +:+ axis);
  update_object hoop (set_prop "shape_tag" ("hoop_" +:+ axis));;
  mret hoop.

Definition add_camera_light : M (string * string) :=
  present ← has_object "Camera";
  (if negb present
   then camera_add (0, -4, 0)%R (radians 90, 0, 0)%R
   else mret tt);;
  cam ← object_by_name "Camera";
  modify (with_scene_camera (Some cam));;
  present ← has_object "Light";
  (if negb present
   then light_add AREA (0, -3, 3)%R
   else mret tt);;
  light ← object_by_name "Light";
  set_light_energy light 500;;
  mret (cam, light).

Definition export_mesh (obj_list : list string) (filename : string) : M unit :=
  object_select_all DESELECT;;
  for_each obj_list (λ obj, select_set obj true);;
  export_scene_obj (path_join export_path filename) true true;;
  for_each obj_list (λ obj, select_set obj false).

Definition render_view (name cam target : string) (rotation : vec3) : M unit :=
  object_select_all DESELECT;;
  s ← get;
  for_each (map_to_list (objects s)).*1 (λ obj,
    o ← get_object obj;
    if bool_decide (obj_type o ≠ CAMERA) then select_set obj true else mret tt);;
  transform_rotate (rotation.1.1) AxX;;
  transform_rotate (rotation.1.2) AxY;;
  transform_rotate (rotation.2) AxZ;;
  modify (with_render_filepath (path_join export_path ("sphere_" +:+ name +:+ ".png")));;
  modify (with_render_format "PNG");;
  render_render true;;
  transform_rotate (- rotation.2) AxZ;;
  transform_rotate (- rotation.1.2) AxY;;
  transform_rotate (- rotation.1.1) AxX.

Definition nl : string := String "010"%char EmptyString.

(** The [with open(...) as f:] block that ends the script. *)
Definition write_labels : M unit :=
  f ← open_w (path_join export_path "core_sphere_labels.csv");
  file_write f ("object,shape_tag" +:+ nl);;
  file_write f ("core_sphere,sphere_core" +:+ nl);;
  file_write f ("core_sphere_outline,sphere_outline" +:+ nl);;
  file_write f ("hoop_Z,hoop_Z" +:+ nl);;
  file_write f ("hoop_X,hoop_X" +:+ nl).


End Script.

(** ** Reading the label file back *)

(** The pieces of [s] between occurrences of [sep]. *)
Fixpoint split_on (sep : ascii) (s : string) : list string :=
  match s with
  | EmptyString => [EmptyString]
  | String c r =>
      if bool_decide (c = sep) then EmptyString :: split_on sep r
      else match split_on sep r with
           | w :: ws => String c w :: ws
           | [] => [String c EmptyString]
           end
  end.

(** The lines of a text, each without its line end. *)
Definition lines (s : string) : list string :=
  match reverse (split_on "010"%char s) with
  | EmptyString :: l => reverse l
  | l => reverse l
  end.

(** The records of a CSV text: one list of fields per line. *)
Definition csv_records (s : string) : list (list string) :=
  split_on ","%char <$> lines s.

(** ** Values the script builds *)

(** A mesh with its normals turned. *)
Definition flipped (m : Mesh) : Mesh :=
  set_normals_flipped (negb (normals_flipped m)) m.

(** The slots after [if slots: slots[0] = mat else: slots.append(mat)]. *)
Definition bound (mat : string) (slots : list string) : list string :=
  if truthy slots then <[0 := mat]> slots else slots ++ [mat].

(** The material [make_material] leaves behind. *)
Definition material_of (col : rgba) (transparent : bool) : Material :=
  {| use_nodes := true;
     base_color := col;
     alpha := snd col;
     blend_method := if transparent then BLEND else blend_method new_material;
     show_transparent_back :=
       if transparent then true else show_transparent_back new_material |}.

(** The outline object [add_outline] makes of [o], on the data [d]. *)
Definition outline_object (o : Object) (d : ObData) (thickness : R) : Object :=
  set_display_type "SOLID"
    (set_show_in_front true
      (set_scale (1 + thickness, 1 + thickness, 1 + thickness)%R
        (set_data d o))).

(** The mesh block of the outline made of the source mesh [m]. *)
Definition outline_mesh (m : Mesh) (mat : string) : Mesh :=
  set_mesh_materials (bound mat (mesh_materials m)) (flipped (copy_of m)).

(** The operator calls of [add_outline]. *)
Definition outline_ops : list Op :=
  [OpModeSet EDIT_MODE; OpMeshSelectAll SELECT; OpFlipNormals; OpModeSet OBJECT_MODE].

(** The orientation [add_hoop] gives a hoop. *)
Definition hoop_rotation (axis : string) : frame :=
  if bool_decide (axis = "X") then euler_frame (0, radians 90, 0)%R
  else if bool_decide (axis = "Y") then euler_frame (radians 90, 0, 0)%R
  else id_frame.

(** The hoop object and its mesh block. *)
Definition hoop_object (k : positive) (loc : vec3) (axis : string) : Object :=
  set_prop "shape_tag" ("hoop_" +:+ axis)
    (set_rotation (hoop_rotation axis) (new_object (DMesh k) loc id_frame)).

Definition hoop_mesh (radius thickness : R) (mat : string) : Mesh :=
  {| shape := Torus radius thickness 96 16; normals_flipped := false;
     mesh_materials := [mat]; other_users := 0 |}.

(** While the unused blocks among [l] are purged: the blocks that stay. *)
Definition stays (l : list positive) (kv : positive * Mesh) : Prop :=
  ¬ (kv.1 ∈ l ∧ other_users kv.2 = 0).

Global Instance stays_dec l kv : Decision (stays l kv).
Proof. unfold stays. apply _. Defined.

(** A mesh block with a user outside the scene. *)
Definition in_use (kv : positive * Mesh) : Prop := other_users kv.2 ≠ 0.

Global Instance in_use_dec kv : Decision (in_use kv).
Proof. unfold in_use. apply _. Defined.

(** The camera and the light [add_camera_light] adds. *)
Definition camera_object : Object :=
  new_object DCamera (0, -4, 0)%R (euler_frame (radians 90, 0, 0)%R).





(** What the selection loop of [render_view] does to one object. *)
Definition pick (o : Object) : Object :=
  if bool_decide (obj_type o ≠ CAMERA) then set_select true o else o.

(** The operator calls of [render_view]. *)
Definition view_ops (rotation : vec3) : list Op :=
  [OpObjectSelectAll DESELECT;
   OpRotate AxX rotation.1.1; OpRotate AxY rotation.1.2; OpRotate AxZ rotation.2;
   OpRender;
   OpRotate AxZ (- rotation.2)%R; OpRotate AxY (- rotation.1.2)%R;
   OpRotate AxX (- rotation.1.1)%R].

(** The objects as [render_view] has them when the still is taken. *)
Definition posed (host : Host) (rotation : vec3) (objs : gmap string Object) : gmap string Object :=
  turn host AxZ rotation.2 <$>
    (turn host AxY rotation.1.2 <$>
      (turn host AxX rotation.1.1 <$>
        (pick <$> (set_select false <$> objs)))).

(** The objects after the three turns back. *)
Definition unposed (host : Host) (rotation : vec3) (objs : gmap string Object) : gmap string Object :=
  turn host AxX (- rotation.1.1)%R <$>
    (turn host AxY (- rotation.1.2)%R <$>
      (turn host AxZ (- rotation.2)%R <$> objs)).

(** The file a view is rendered to. *)
Definition view_path (host : Host) (name : string) : string :=
  path_join (export_path host) ("sphere_" +:+ name +:+ ".png").

(** The transform an object has after the three turns of a view. *)
Definition turned (host : Host) (rotation : vec3) (t : vec3 * frame * vec3) : vec3 * frame * vec3 :=
  (rot_about (pivot host) AxZ rotation.2
     (rot_about (pivot host) AxY rotation.1.2
        (rot_about (pivot host) AxX rotation.1.1 t.1.1)),
   rot_frame AxZ rotation.2
     (rot_frame AxY rotation.1.2 (rot_frame AxX rotation.1.1 t.1.2)),
   t.2).

(** The label file and the text the script writes to it. *)
Definition label_path (host : Host) : string :=
  path_join (export_path host) "core_sphere_labels.csv".

Definition label_text : string :=
  "object,shape_tag" +:+ nl +:+
  "core_sphere,sphere_core" +:+ nl +:+
  "core_sphere_outline,sphere_outline" +:+ nl +:+
  "hoop_Z,hoop_Z" +:+ nl +:+
  "hoop_X,hoop_X" +:+ nl.

(** A run that finishes in a store where [P] holds. *)
Definition succeeds_with {A} (P : State → Prop) (r : Res A) : Prop :=
  match r with
  | Ok _ s' => P s'
  | Raise _ => False
  end.


Definition has_tag (kv : string * Object) : Prop :=
  is_Some (props kv.2 !! "shape_tag").

Global Instance has_tag_dec kv : Decision (has_tag kv).
Proof. unfold has_tag. apply _. Defined.




(** ** Sample inputs *)

Definition host0 : Host :=
  {| home := "/home/user"; pivot := (0, 0, 0)%R;
     camera_defname := "Camera"; light_defname := "Light" |}.

Definition empty_state : State :=
  {| objects := ∅; meshes := ∅; materials := ∅; active := None;
     mode := OBJECT_MODE; cursor := (0, 0, 0)%R; scene_camera := None;
     render_filepath := ""; render_format := ""; files := ∅; oplog := [] |}.

Definition sample_mesh : Mesh :=
  {| shape := UVSphere 1 64 64; normals_flipped := false;
     mesh_materials := []; other_users := 0 |}.

(** A scene with one sphere and a camera. *)
Definition sample_scene : State :=
  {| objects := <["core_sphere" := new_object (DMesh 1) (0, 0, 0)%R id_frame]>
                  (<["Camera" := camera_object]> ∅);
     meshes := <[1%positive := sample_mesh]> ∅;
     materials := ∅; active := Some "core_sphere";
     mode := OBJECT_MODE; cursor := (0, 0, 0)%R; scene_camera := Some "Camera";
     render_filepath := ""; render_format := ""; files := ∅; oplog := [] |}.



(** A host that names a new area light "Area". *)
Definition host_area : Host :=
  {| home := "/home/user"; pivot := (0, 0, 0)%R;
     camera_defname := "Camera"; light_defname := "Area" |}.

(** The sample scene with a mesh object that is named "Light". *)
Definition mislabelled_scene : State :=
  upd_objects <["Light" := new_object (DMesh 1) (0, 0, 0)%R id_frame]> sample_scene.

(** ** Further values the script builds *)







(** * Properties *)

(** ** Rotations *)

Section GeometryFacts.

Local Open Scope R_scope.

Lemma sin2_cos2' a : sin a * sin a + cos a * cos a = 1.
Proof. generalize (sin2_cos2 a). unfold Rsqr. tauto. Qed.

Lemma rot_0 ax v : rot ax 0 v = v.
Proof.
  destruct v as [[x y] z], ax; unfold rot; rewrite cos_0, sin_0;
    repeat f_equal; ring.
Qed.

Lemma rot_neg_cancel ax a v : rot ax (- a) (rot ax a v) = v.
Proof.
  destruct v as [[x y] z].
  pose proof (sin2_cos2' a) as H.
  destruct ax; unfold rot; rewrite cos_neg, sin_neg; repeat f_equal.
  - transitivity ((sin a * sin a + cos a * cos a) * y); [ring | rewrite H; ring].
  - transitivity ((sin a * sin a + cos a * cos a) * z); [ring | rewrite H; ring].
  - transitivity ((sin a * sin a + cos a * cos a) * x); [ring | rewrite H; ring].
  - transitivity ((sin a * sin a + cos a * cos a) * z); [ring | rewrite H; ring].
  - transitivity ((sin a * sin a + cos a * cos a) * x); [ring | rewrite H; ring].
  - transitivity ((sin a * sin a + cos a * cos a) * y); [ring | rewrite H; ring].
Qed.

Lemma vsub_vadd c v : vsub (vadd c v) c = v.
Proof. destruct c as [[a b] d], v as [[x y] z]. unfold vsub, vadd. repeat f_equal; ring. Qed.

Lemma vadd_vsub c v : vadd c (vsub v c) = v.
Proof. destruct c as [[a b] d], v as [[x y] z]. unfold vsub, vadd. repeat f_equal; ring. Qed.

Lemma rot_about_neg_cancel c ax a v :
  rot_about c ax (- a) (rot_about c ax a v) = v.
Proof.
  unfold rot_about. rewrite vsub_vadd, rot_neg_cancel. apply vadd_vsub.
Qed.

Lemma rot_frame_neg_cancel ax a f : rot_frame ax (- a) (rot_frame ax a f) = f.
Proof.
  destruct f as [[u v] w]. unfold rot_frame. by rewrite !rot_neg_cancel.
Qed.


Lemma rot_frame_0 ax f : rot_frame ax 0 f = f.
Proof. destruct f as [[u v] w]. unfold rot_frame. by rewrite !rot_0. Qed.

Lemma euler_frame_zero : euler_frame (0, 0, 0) = id_frame.
Proof. unfold euler_frame. by rewrite !rot_frame_0. Qed.





End GeometryFacts.

(** ** Running the monad *)

Lemma bind_ok {A B} (m : M A) (f : A → M B) s a s1 :
  m s = Ok a s1 → (m ≫= f) s = f a s1.
Proof. unfold mbind, M_bind. by intros ->. Qed.

Lemma bind_raise {A B} (m : M A) (f : A → M B) s e :
  m s = Raise e → (m ≫= f) s = Raise e.
Proof. unfold mbind, M_bind. by intros ->. Qed.

Lemma bind_assoc_run {A B} (m : M A) (f : A → M B) s :
  (m ≫= f) s = match m s with Ok a s' => f a s' | Raise e => Raise e end.
Proof. reflexivity. Qed.

(** The store after an update, field by field. *)
Ltac st :=
  cbv beta iota zeta delta
      [objects meshes materials active mode cursor scene_camera
       render_filepath render_format files oplog
       upd_objects upd_meshes upd_materials with_active with_mode
       with_scene_camera with_render_filepath with_render_format
       upd_files log_op added].

(** One statement: [lem] shows what the first action of a sequence does in
    the current store. *)
Ltac step lem :=
  lazymatch goal with
  | |- mbind ?f ?m ?s = _ =>
      erewrite (bind_ok m f s); [ | solve [ lem ] ]; cbn beta; st
  | |- succeeds_with _ (mbind ?f ?m ?s) =>
      erewrite (bind_ok m f s); [ | solve [ lem ] ]; cbn beta; st
  end.

(** ** What each host operation does when it succeeds *)

Section HostFacts.

Implicit Types (s : State) (o : Object) (m : Mesh) (n : string) (k : positive).

Lemma get_object_ok s n o :
  objects s !! n = Some o → get_object n s = Ok o s.
Proof. unfold get_object. by intros ->. Qed.

Lemma update_object_ok s n o f :
  objects s !! n = Some o →
  update_object n f s = Ok tt (upd_objects <[n := f o]> s).
Proof.
  intros H. unfold update_object.
  rewrite (bind_ok _ _ _ _ _ (get_object_ok _ _ _ H)).
  unfold modify, upd_objects. by rewrite (alter_alt_Some _ _ _ _ H).
Qed.

Lemma select_set_ok s n o b :
  objects s !! n = Some o →
  select_set n b s = Ok tt (upd_objects <[n := set_select b o]> s).
Proof. apply update_object_ok. Qed.

Lemma copy_object_ok s n o :
  objects s !! n = Some o →
  copy_object n s =
    Ok (fresh_string n (objects s))
       (upd_objects <[fresh_string n (objects s) := o]> s).
Proof. unfold copy_object. by intros ->. Qed.

Lemma link_object_ok s n o :
  objects s !! n = Some o → link_object n s = Ok tt s.
Proof.
  intros H. unfold link_object.
  by rewrite (bind_ok _ _ _ _ _ (get_object_ok _ _ _ H)).
Qed.

Lemma set_active_ok s n o :
  objects s !! n = Some o → set_active n s = Ok tt (with_active (Some n) s).
Proof.
  intros H. unfold set_active.
  by rewrite (bind_ok _ _ _ _ _ (get_object_ok _ _ _ H)).
Qed.

Lemma active_object_ok s n :
  active s = Some n → active_object s = Ok n s.
Proof. unfold active_object. by intros ->. Qed.

Lemma get_mesh_ok s k m :
  meshes s !! k = Some m → get_mesh k s = Ok m s.
Proof. unfold get_mesh. by intros ->. Qed.

Lemma copy_data_ok s k m :
  meshes s !! k = Some m →
  copy_data (DMesh k) s =
    Ok (DMesh (fresh (dom (meshes s))))
       (upd_meshes <[fresh (dom (meshes s)) := copy_of m]> s).
Proof.
  intros H. unfold copy_data.
  by rewrite (bind_ok _ _ _ _ _ (get_mesh_ok _ _ _ H)).
Qed.

Lemma mode_set_edit_ok s a o k :
  active s = Some a → objects s !! a = Some o → data o = DMesh k →
  mode_set EDIT_MODE s = Ok tt (log_op (OpModeSet EDIT_MODE) (with_mode EDIT_MODE s)).
Proof.
  intros Ha Ho Hd. unfold mode_set. rewrite bind_assoc_run. unfold get.
  rewrite Ha, (bind_ok _ _ _ _ _ (get_object_ok _ _ _ Ho)), Hd. done.
Qed.

Lemma mode_set_object_ok s :
  mode_set OBJECT_MODE s = Ok tt (log_op (OpModeSet OBJECT_MODE) (with_mode OBJECT_MODE s)).
Proof. done. Qed.

Lemma edit_mesh_ok s a o k :
  mode s = EDIT_MODE → active s = Some a → objects s !! a = Some o →
  data o = DMesh k → edit_mesh s = Ok k s.
Proof.
  intros Hm Ha Ho Hd. unfold edit_mesh. rewrite bind_assoc_run. unfold get.
  rewrite Hm, Ha, (bind_ok _ _ _ _ _ (get_object_ok _ _ _ Ho)), Hd. done.
Qed.

Lemma mesh_select_all_ok s a o k act :
  mode s = EDIT_MODE → active s = Some a → objects s !! a = Some o →
  data o = DMesh k →
  mesh_select_all act s = Ok tt (log_op (OpMeshSelectAll act) s).
Proof.
  intros Hm Ha Ho Hd. unfold mesh_select_all.
  by rewrite (bind_ok _ _ _ _ _ (edit_mesh_ok _ _ _ _ Hm Ha Ho Hd)).
Qed.

Lemma mesh_flip_normals_ok s a o k m :
  mode s = EDIT_MODE → active s = Some a → objects s !! a = Some o →
  data o = DMesh k → meshes s !! k = Some m →
  mesh_flip_normals s =
    Ok tt (log_op OpFlipNormals (upd_meshes <[k := flipped m]> s)).
Proof.
  intros Hm Ha Ho Hd Hk. unfold mesh_flip_normals.
  rewrite (bind_ok _ _ _ _ _ (edit_mesh_ok _ _ _ _ Hm Ha Ho Hd)).
  unfold modify, upd_meshes. by rewrite (alter_alt_Some _ _ _ _ Hk).
Qed.

Lemma data_mesh_ok s n o k :
  objects s !! n = Some o → data o = DMesh k → data_mesh n s = Ok k s.
Proof.
  intros Ho Hd. unfold data_mesh.
  by rewrite (bind_ok _ _ _ _ _ (get_object_ok _ _ _ Ho)), Hd.
Qed.

Lemma data_materials_ok s n o k m :
  objects s !! n = Some o → data o = DMesh k → meshes s !! k = Some m →
  data_materials n s = Ok (mesh_materials m) s.
Proof.
  intros Ho Hd Hk. unfold data_materials.
  rewrite (bind_ok _ _ _ _ _ (data_mesh_ok _ _ _ _ Ho Hd)).
  by rewrite (bind_ok _ _ _ _ _ (get_mesh_ok _ _ _ Hk)).
Qed.

Lemma bind_slot_ok s n o k m mat :
  objects s !! n = Some o → data o = DMesh k → meshes s !! k = Some m →
  (if truthy (mesh_materials m)
   then materials_set n 0 mat
   else materials_append n mat) s =
    Ok tt (upd_meshes <[k := set_mesh_materials (bound mat (mesh_materials m)) m]> s).
Proof.
  intros Ho Hd Hk. unfold bound.
  destruct (mesh_materials m) as [|x l] eqn:E; simpl.
  - unfold materials_append.
    rewrite (bind_ok _ _ _ _ _ (data_mesh_ok _ _ _ _ Ho Hd)).
    rewrite (bind_ok _ _ _ _ _ (get_mesh_ok _ _ _ Hk)).
    unfold modify, upd_meshes. by rewrite (alter_alt_Some _ _ _ _ Hk), E.
  - unfold materials_set.
    rewrite (bind_ok _ _ _ _ _ (data_mesh_ok _ _ _ _ Ho Hd)).
    rewrite (bind_ok _ _ _ _ _ (get_mesh_ok _ _ _ Hk)).
    rewrite E. case_decide; [|simpl in *; lia].
    unfold modify, upd_meshes. by rewrite (alter_alt_Some _ _ _ _ Hk).
Qed.

End HostFacts.

Section ScriptFacts.

Implicit Types (s : State) (o : Object) (m : Mesh) (n : string) (k : positive).

Lemma update_material_ok s n x f :
  materials s !! n = Some x →
  update_material n f s = Ok tt (upd_materials <[n := f x]> s).
Proof.
  intros H. unfold update_material. rewrite H.
  unfold upd_materials. by rewrite (alter_alt_Some _ _ _ _ H).
Qed.

Lemma make_material_ok s name col tr :
  make_material name col tr s =
    Ok (fresh_string name (materials s))
       (upd_materials <[fresh_string name (materials s) := material_of col tr]> s).
Proof.
  destruct s as [objs ms mats act md cur cam rp rf fs lg]. st.
  unfold make_material. set (mat := fresh_string name mats).
  step ltac:(reflexivity). fold mat.
  step ltac:(apply update_material_ok; st; apply lookup_insert_eq).
  step ltac:(apply update_material_ok; st; apply lookup_insert_eq).
  step ltac:(apply update_material_ok; st; apply lookup_insert_eq).
  rewrite !insert_insert_eq.
  destruct tr.
  - step ltac:(step ltac:(apply update_material_ok; st; apply lookup_insert_eq);
               apply update_material_ok; st; apply lookup_insert_eq).
    by rewrite !insert_insert_eq.
  - step ltac:(reflexivity). reflexivity.
Qed.

Lemma set_name_ok s n o new :
  objects s !! n = Some o →
  set_name n new s =
    let n' := fresh_string new (delete n (objects s)) in
    Ok n'
      (with_active (retarget n n' (active s))
        (with_scene_camera (retarget n n' (scene_camera s))
          (upd_objects (λ _, <[n' := o]> (reparent n n' <$> delete n (objects s))) s))).
Proof. unfold set_name. by intros ->. Qed.

Lemma add_outline_ok s obj o k m th :
  objects s !! obj = Some o → data o = DMesh k → meshes s !! k = Some m →
  let nc := fresh_string obj (objects s) in
  let k' := fresh (dom (meshes s)) in
  let mat := fresh_string "outline_black" (materials s) in
  let n' := fresh_string (obj +:+ "_outline") (objects s) in
  add_outline obj th s =
    Ok n'
      {| objects := <[n' := outline_object o (DMesh k') th]> (reparent nc n' <$> objects s);
         meshes := <[k' := outline_mesh m mat]> (meshes s);
         materials := <[mat := material_of (0, 0, 0, 1)%R true]> (materials s);
         active := Some n';
         mode := OBJECT_MODE;
         cursor := cursor s;
         scene_camera := retarget nc n' (scene_camera s);
         render_filepath := render_filepath s;
         render_format := render_format s;
         files := files s;
         oplog := oplog s ++ outline_ops |}.
Proof.
  destruct s as [objs ms mats act md cur cam rp rf fs lg].
  cbv beta iota delta
      [objects meshes materials active mode cursor scene_camera
       render_filepath render_format files oplog].
  intros Ho Hd Hk nc k' mat n'.
  assert (Hnc : objs !! nc = None) by apply fresh_string_fresh.
  assert (Hne : nc ≠ obj) by (intros E; rewrite E in Hnc; congruence).
  unfold add_outline.
  step ltac:(apply copy_object_ok; eassumption). fold nc.
  step ltac:(apply get_object_ok; st; rewrite lookup_insert_ne by done; eassumption).
  rewrite Hd.
  step ltac:(apply copy_data_ok; st; eassumption). fold k'.
  step ltac:(eapply update_object_ok; st; apply lookup_insert_eq).
  rewrite insert_insert_eq.
  step ltac:(eapply link_object_ok; st; apply lookup_insert_eq).
  step ltac:(eapply update_object_ok; st; apply lookup_insert_eq).
  rewrite insert_insert_eq.
  step ltac:(eapply set_active_ok; st; apply lookup_insert_eq).
  step ltac:(eapply mode_set_edit_ok; st; [reflexivity | apply lookup_insert_eq | reflexivity]).
  step ltac:(eapply mesh_select_all_ok; st; [reflexivity | reflexivity | apply lookup_insert_eq | reflexivity]).
  step ltac:(eapply mesh_flip_normals_ok; st; [reflexivity | reflexivity | apply lookup_insert_eq | reflexivity | apply lookup_insert_eq]).
  rewrite insert_insert_eq.
  step ltac:(apply mode_set_object_ok).
  step ltac:(apply make_material_ok). fold mat.
  step ltac:(eapply data_materials_ok; st; [apply lookup_insert_eq | reflexivity | apply lookup_insert_eq]).
  step ltac:(eapply bind_slot_ok; st; [apply lookup_insert_eq | reflexivity | apply lookup_insert_eq]).
  rewrite insert_insert_eq.
  step ltac:(eapply update_object_ok; st; apply lookup_insert_eq).
  rewrite insert_insert_eq.
  step ltac:(eapply update_object_ok; st; apply lookup_insert_eq).
  rewrite insert_insert_eq.
  step ltac:(eapply set_name_ok; st; apply lookup_insert_eq).
  rewrite delete_insert_eq, (delete_id _ _ Hnc). fold n'.
  unfold retarget at 1. rewrite decide_True by done.
  unfold mret, M_ret. rewrite <- !app_assoc. reflexivity.
Qed.

Lemma add_hoop_ok s radius thickness axis :
  let k := fresh (dom (meshes s)) in
  let objs := set_select false <$> objects s in
  let n0 := fresh_string "Torus" (objects s) in
  let mat := fresh_string "hoop_black" (materials s) in
  let n' := fresh_string ("hoop_" +:+ axis) objs in
  add_hoop radius thickness axis s =
    Ok n'
      {| objects := <[n' := hoop_object k (cursor s) axis]> (reparent n0 n' <$> objs);
         meshes := <[k := hoop_mesh radius thickness mat]> (meshes s);
         materials := <[mat := material_of (0, 0, 0, 1)%R true]> (materials s);
         active := Some n';
         mode := mode s;
         cursor := cursor s;
         scene_camera := retarget n0 n' (scene_camera s);
         render_filepath := render_filepath s;
         render_format := render_format s;
         files := files s;
         oplog := oplog s ++ [OpTorusAdd] |}.
Proof.
  destruct s as [objs0 ms mats act md cur cam rp rf fs lg].
  cbv beta iota delta
      [objects meshes materials active mode cursor scene_camera
       render_filepath render_format files oplog].
  intros k objs n0 mat n'.
  assert (Hn0 : objs !! n0 = None).
  { unfold objs. rewrite lookup_fmap. unfold n0. by rewrite fresh_string_fresh. }
  unfold add_hoop.
  step ltac:(unfold primitive_torus_add;
             step ltac:(reflexivity); step ltac:(reflexivity);
             step ltac:(reflexivity); reflexivity).
  fold k n0 objs.
  step ltac:(apply active_object_ok; reflexivity).
  set (base := new_object (DMesh k) cur id_frame).
  match goal with |- mbind _ _ ?S = _ => set (s1 := S) end.
  assert (Hrot : (if bool_decide (axis = "X")
     then update_object n0 (set_rotation (euler_frame (0%R, radians 90, 0%R)))
     else if bool_decide (axis = "Y")
       then update_object n0 (set_rotation (euler_frame (radians 90, 0%R, 0%R)))
       else mret ()) s1 = Ok tt (upd_objects <[n0 := set_rotation (hoop_rotation axis) base]> s1)).
  { unfold hoop_rotation. repeat case_bool_decide.
    - eapply update_object_ok. subst s1; st. apply lookup_insert_eq.
    - eapply update_object_ok. subst s1; st. apply lookup_insert_eq.
    - unfold mret, M_ret. f_equal. subst s1. st.
      rewrite insert_insert_eq. reflexivity. }
  step ltac:(apply Hrot). clear Hrot. subst s1. st. rewrite insert_insert_eq.
  step ltac:(apply make_material_ok). fold mat.
  step ltac:(eapply data_materials_ok; st; [apply lookup_insert_eq | reflexivity | apply lookup_insert_eq]).
  step ltac:(eapply bind_slot_ok; st; [apply lookup_insert_eq | reflexivity | apply lookup_insert_eq]).
  rewrite insert_insert_eq.
  step ltac:(eapply set_name_ok; st; apply lookup_insert_eq).
  rewrite delete_insert_eq, (delete_id _ _ Hn0). fold n'.
  step ltac:(eapply update_object_ok; st; apply lookup_insert_eq).
  rewrite insert_insert_eq.
  unfold retarget at 1. rewrite decide_True by done.
  reflexivity.
Qed.






Lemma pick_body_ok s n o :
  objects s !! n = Some o →
  (o ← get_object n;
   if bool_decide (obj_type o ≠ CAMERA) then select_set n true else mret tt) s =
  Ok tt (upd_objects (alter pick n) s).
Proof.
  intros Ho. rewrite (bind_ok _ _ _ _ _ (get_object_ok _ _ _ Ho)).
  destruct s as [objs ms mats act md cur cam rp rf fs lg]. cbn [objects] in Ho. st.
  rewrite (alter_alt_Some _ _ _ _ Ho). unfold pick.
  case_bool_decide.
  - erewrite select_set_ok by (st; eassumption). reflexivity.
  - unfold mret, M_ret. by rewrite (insert_id _ _ _ Ho).
Qed.

Lemma pick_loop_ok (l : list string) : ∀ s,
  NoDup l → (∀ n, n ∈ l → is_Some (objects s !! n)) →
  ∃ objs', for_each l (λ obj,
      o ← get_object obj;
      if bool_decide (obj_type o ≠ CAMERA) then select_set obj true else mret tt) s
    = Ok tt (upd_objects (λ _, objs') s) ∧
    ∀ i, objs' !! i = if decide (i ∈ l) then pick <$> objects s !! i else objects s !! i.
Proof.
  induction l as [|k l IH]; intros s Hnd Hin.
  - exists (objects s). split.
    + simpl. unfold mret, M_ret. by destruct s.
    + intros i. rewrite decide_False; [done|]. apply not_elem_of_nil.
  - apply NoDup_cons in Hnd as [Hk Hnd].
    destruct (Hin k) as [o Ho]; [apply elem_of_cons; by left|].
    destruct (IH (upd_objects (alter pick k) s) Hnd) as (objs' & Hrun & Hlook).
    { intros n Hn. destruct s; st. rewrite lookup_alter_ne by (by intros ->).
      apply Hin, elem_of_cons. by right. }
    exists objs'. split.
    + cbn [for_each]. rewrite (bind_ok _ _ _ _ _ (pick_body_ok _ _ _ Ho)).
      rewrite Hrun. by destruct s.
    + intros i. rewrite Hlook. destruct s as [objs ms mats act md cur cam rp rf fs lg]; st.
      destruct (decide (i = k)) as [->|Hik].
      * rewrite decide_False by done. rewrite decide_True by (apply elem_of_cons; by left).
        by rewrite lookup_alter_eq.
      * rewrite lookup_alter_ne by done.
        destruct (decide (i ∈ l)).
        -- by rewrite decide_True by (apply elem_of_cons; by right).
        -- rewrite decide_False; [done|]. by intros [?|?]%elem_of_cons.
Qed.

Lemma pick_all_ok s :
  for_each (map_to_list (objects s)).*1 (λ obj,
      o ← get_object obj;
      if bool_decide (obj_type o ≠ CAMERA) then select_set obj true else mret tt) s
    = Ok tt (upd_objects (fmap pick) s).
Proof.
  destruct (pick_loop_ok (map_to_list (objects s)).*1 s) as (objs' & Hrun & Hlook).
  - apply NoDup_fst_map_to_list.
  - intros k [[k' x] [-> Hx]]%list_elem_of_fmap. simpl.
    apply elem_of_map_to_list in Hx. eauto.
  - rewrite Hrun. f_equal. destruct s as [objs ms mats act md cur cam rp rf fs lg]; st.
    f_equal. apply map_eq. intros i. rewrite Hlook, lookup_fmap. cbn [objects].
    case_decide; [done|]. destruct (objs !! i) as [x|] eqn:E; [|done].
    exfalso. apply H. apply list_elem_of_fmap. exists (i, x). split; [done|].
    by apply elem_of_map_to_list.
Qed.

Lemma transform_rotate_ok host s value ax :
  transform_rotate host value ax s =
    Ok tt (log_op (OpRotate ax value) (upd_objects (fmap (turn host ax value)) s)).
Proof. reflexivity. Qed.

Lemma render_render_ok s c :
  scene_camera s = Some c →
  render_render true s =
    Ok tt (log_op OpRender
             (upd_files <[render_filepath s := PngFile (objects s) (scene_camera s)]> s)).
Proof.
  destruct s as [objs ms mats act md cur cm rp rf fs lg]. cbn [scene_camera].
  intros ->. reflexivity.
Qed.

Lemma render_view_ok host s name cam target rotation c :
  scene_camera s = Some c →
  render_view host name cam target rotation s =
    Ok tt
      {| objects := unposed host rotation (posed host rotation (objects s));
         meshes := meshes s;
         materials := materials s;
         active := active s;
         mode := mode s;
         cursor := cursor s;
         scene_camera := scene_camera s;
         render_filepath := view_path host name;
         render_format := "PNG";
         files := <[view_path host name :=
                      PngFile (posed host rotation (objects s)) (scene_camera s)]> (files s);
         oplog := oplog s ++ view_ops rotation |}.
Proof.
  destruct s as [objs ms mats act md cur cm rp rf fs lg]. st. intros Hc.
  unfold render_view.
  step ltac:(reflexivity).
  step ltac:(reflexivity).
  step ltac:(idtac; lazymatch goal with |- _ ?S = _ => exact (pick_all_ok S) end).
  step ltac:(apply transform_rotate_ok).
  step ltac:(apply transform_rotate_ok).
  step ltac:(apply transform_rotate_ok).
  step ltac:(reflexivity).
  step ltac:(reflexivity).
  step ltac:(eapply render_render_ok; st; eassumption).
  step ltac:(apply transform_rotate_ok).
  step ltac:(apply transform_rotate_ok).
  rewrite transform_rotate_ok. st.
  rewrite <- !app_assoc. reflexivity.
Qed.

Lemma rotate_object_cancel host ax v o :
  rotate_object host ax (- v) (rotate_object host ax v o) = o.
Proof.
  destruct o. unfold rotate_object, set_rotation, set_location; simpl.
  by rewrite rot_about_neg_cancel, rot_frame_neg_cancel.
Qed.

Lemma turn_cancel host ax v o : turn host ax (- v) (turn host ax v o) = o.
Proof.
  unfold turn. destruct (select o) eqn:E; [|by rewrite E].
  replace (select (rotate_object host ax v o)) with true by (by destruct o).
  apply rotate_object_cancel.
Qed.

Lemma fmap_cancel {A} (f g : A → A) (m : gmap string A) :
  (∀ x, g (f x) = x) → g <$> (f <$> m) = m.
Proof.
  intros H. rewrite <- map_fmap_compose. rewrite <- (map_fmap_id m) at 2.
  apply map_fmap_ext. intros i x _. apply H.
Qed.

Lemma unposed_posed host rotation objs :
  unposed host rotation (posed host rotation objs) =
    pick <$> (set_select false <$> objs).
Proof.
  unfold unposed, posed.
  rewrite (fmap_cancel (turn host AxZ rotation.2)) by apply turn_cancel.
  rewrite (fmap_cancel (turn host AxY rotation.1.2)) by apply turn_cancel.
  by rewrite (fmap_cancel (turn host AxX rotation.1.1)) by apply turn_cancel.
Qed.

Lemma transform_pick o : transform (pick (set_select false o)) = transform o.
Proof. unfold pick. by case_bool_decide. Qed.

Lemma pick_selects o :
  obj_type o ≠ CAMERA → select (pick (set_select false o)) = true.
Proof.
  intros H. unfold pick. rewrite bool_decide_true; [done|]. by destruct o.
Qed.

Lemma pick_camera o :
  obj_type o = CAMERA → pick (set_select false o) = set_select false o.
Proof.
  intros H. unfold pick. rewrite bool_decide_false; [done|].
  intros H'. apply H'. by destruct o.
Qed.

Lemma posed_lookup host rotation objs n o :
  objs !! n = Some o →
  ∃ o', posed host rotation objs !! n = Some o' ∧
        transform o' =
          if bool_decide (obj_type o ≠ CAMERA)
          then turned host rotation (transform o)
          else transform o.
Proof.
  intros Ho. unfold posed. rewrite !lookup_fmap, Ho. simpl.
  eexists. split; [reflexivity|].
  case_bool_decide as Hty.
  - pose proof (pick_selects o Hty) as Hs.
    set (p := pick (set_select false o)) in *.
    assert (Hp : transform p = transform o) by apply transform_pick.
    unfold turn at 3. rewrite Hs.
    unfold turn at 2. replace (select (rotate_object host AxX rotation.1.1 p)) with true
      by (by destruct p).
    unfold turn. replace (select (rotate_object host AxY rotation.1.2 _)) with true
      by (by destruct p).
    unfold turned. rewrite <- Hp. by destruct p.
  - assert (Hc : obj_type o = CAMERA) by (by destruct (decide (obj_type o = CAMERA))).
    rewrite (pick_camera o Hc). unfold turn. simpl. by destruct o.
Qed.

End ScriptFacts.

Section CameraLightFacts.

Variable host : Host.
Hypothesis Hcam : camera_defname host = "Camera".
Hypothesis Hlight : light_defname host = "Light".

Lemma fresh_string_free {A} (m : gmap string A) n :
  m !! n = None → fresh_string n m = n.
Proof. unfold fresh_string. by intros ->. Qed.

Lemma camera_add_ok s loc rot :
  objects s !! "Camera" = None →
  camera_add host loc rot s =
    Ok tt (added "Camera" (new_object DCamera loc (euler_frame rot)) OpCameraAdd s).
Proof.
  intros H. unfold camera_add, add_object, mbind, M_bind, mret, M_ret.
  by rewrite Hcam, (fresh_string_free _ _ H).
Qed.


Lemma has_object_ok s n :
  has_object n s = Ok (bool_decide (is_Some (objects s !! n))) s.
Proof. done. Qed.

Lemma object_by_name_ok s n o :
  objects s !! n = Some o → object_by_name n s = Ok n s.
Proof. unfold object_by_name. by intros ->. Qed.


End CameraLightFacts.

(** Where the host gives the new area light another name than "Light"
    and the scene has no object of that name, the lookup after
    [light_add] raises. *)
Lemma add_camera_light_other_name host s :
  camera_defname host = "Camera" →
  light_defname host ≠ "Light" → light_defname host ≠ "Camera" →
  objects s !! "Camera" = None → objects s !! "Light" = None →
  objects s !! light_defname host = None →
  add_camera_light host s = Raise (KeyError "Light").
Proof.
  intros Hcam Hn1 Hn2.
  destruct s as [objs ms mats act md cur cam rp rf fs lg]. cbn [objects].
  intros Hc Hl Hf.
  unfold add_camera_light.
  step ltac:(apply has_object_ok). st.
  rewrite Hc, bool_decide_false by (intros [? ?]; congruence). cbn [negb].
  step ltac:(apply (camera_add_ok host Hcam); st; assumption). unfold added; st.
  step ltac:(eapply object_by_name_ok; st; apply lookup_insert_eq).
  step ltac:(reflexivity).
  step ltac:(apply has_object_ok). st.
  set (cm := new_object DCamera (0, -4, 0)%R (euler_frame (radians 90, 0, 0)%R)).
  assert (Hl' : (<["Camera" := cm]> (set_select false <$> objs)) !! "Light" = None).
  { rewrite lookup_insert_ne by done. by rewrite lookup_fmap, Hl. }
  assert (Hf' : (<["Camera" := cm]> (set_select false <$> objs)) !! light_defname host
                = None).
  { rewrite lookup_insert_ne by done. by rewrite lookup_fmap, Hf. }
  rewrite Hl'.
  rewrite bool_decide_false by (intros [? ?]; simpl in *; congruence). cbn [negb].
  unfold light_add, add_object, mbind, M_bind, mret, M_ret; st.
  rewrite (fresh_string_free _ _ Hf').
  unfold object_by_name; st.
  assert (Hl'' : (<[light_defname host :=
                      new_object (DLight AREA default_energy) (0, -3, 3)%R id_frame]>
                    (set_select false <$>
                       <["Camera" := cm]> (set_select false <$> objs))) !! "Light" = None).
  { rewrite lookup_insert_ne by done. by rewrite lookup_fmap, Hl'. }
  by rewrite Hl''.
Qed.


(** ** Paths and the label file *)

Section LabelFacts.

Implicit Types (s : State).

Lemma ends_with_slash_app a b :
  b ≠ "" → ends_with_slash (a +:+ b) = ends_with_slash b.
Proof.
  intros Hb. induction a as [|c a IH]; [done|].
  rewrite <- IH. change (String c a +:+ b) with (String c (a +:+ b)).
  destruct (a +:+ b) eqn:E; [|reflexivity].
  destruct a; simpl in E; [by destruct Hb|discriminate].
Qed.

Lemma export_path_eq host :
  export_path host = rstrip_slash (home host) +:+ "/Desktop/sphere_dataset/".
Proof.
  unfold export_path, expanduser. cbn [bool_decide starts_with_slash orb].
  rewrite bool_decide_false by done. cbn [orb].
  rewrite bool_decide_true by done.
  destruct (rstrip_slash (home host) +:+ "/Desktop/sphere_dataset/") eqn:E; [|done].
  destruct (rstrip_slash (home host)); discriminate.
Qed.

Lemma path_join_export host f :
  starts_with_slash f = false → path_join (export_path host) f = export_path host +:+ f.
Proof.
  intros Hf. unfold path_join. rewrite Hf.
  assert (ends_with_slash (export_path host) = true) as ->.
  { rewrite export_path_eq, ends_with_slash_app by done. reflexivity. }
  by rewrite orb_true_r.
Qed.

Lemma file_write_ok s f c text :
  files s !! f = Some (TextFile c) →
  file_write f text s = Ok tt (upd_files <[f := TextFile (c +:+ text)]> s).
Proof. unfold file_write. by intros ->. Qed.

Lemma write_labels_ok host s :
  write_labels host s =
    Ok tt (upd_files <[label_path host := TextFile label_text]> s).
Proof.
  destruct s as [objs ms mats act md cur cam rp rf fs lg].
  unfold write_labels. fold (label_path host).
  step ltac:(reflexivity).
  step ltac:(eapply file_write_ok; st; apply lookup_insert_eq). rewrite insert_insert_eq.
  step ltac:(eapply file_write_ok; st; apply lookup_insert_eq). rewrite insert_insert_eq.
  step ltac:(eapply file_write_ok; st; apply lookup_insert_eq). rewrite insert_insert_eq.
  step ltac:(eapply file_write_ok; st; apply lookup_insert_eq). rewrite insert_insert_eq.
  erewrite file_write_ok by (st; apply lookup_insert_eq). st. rewrite insert_insert_eq.
  reflexivity.
Qed.

Example label_lines :
  lines label_text =
    ["object,shape_tag"; "core_sphere,sphere_core";
     "core_sphere_outline,sphere_outline"; "hoop_Z,hoop_Z"; "hoop_X,hoop_X"].
Proof. vm_compute. reflexivity. Qed.

Example label_records :
  csv_records label_text =
    [["object"; "shape_tag"]; ["core_sphere"; "sphere_core"];
     ["core_sphere_outline"; "sphere_outline"]; ["hoop_Z"; "hoop_Z"];
     ["hoop_X"; "hoop_X"]].
Proof. vm_compute. reflexivity. Qed.

End LabelFacts.

(** ** The whole script *)

Implicit Types (s : State) (o : Object) (m : Mesh) (n : string) (k : positive).








Lemma keys_differ (a b : string) : bool_decide (a = b) = false → a ≠ b.
Proof. intros H E. by rewrite bool_decide_true in H. Qed.

Ltac names := solve [apply keys_differ; vm_compute; reflexivity].


Ltac present :=
  solve [ repeat (rewrite lookup_insert_ne by names); apply lookup_insert_eq ].









Section MainFacts.
Variable host : Host.
Hypothesis Hcam : camera_defname host = "Camera".
Hypothesis Hlight : light_defname host = "Light".


End MainFacts.

(** ** The claims of the specification *)

(** The fields of a written-out store. *)
Ltac proj :=
  cbn [objects meshes materials active mode cursor scene_camera
       render_filepath render_format files oplog].









(** C1. For each view [(name, rotation)] of [RENDER_VIEWS] and a store
    with a scene camera, [render_view] succeeds; the operators it calls
    are, in this order: deselect all, turn by [rotation[0]] about X, by
    [rotation[1]] about Y, by [rotation[2]] about Z, render, turn by
    [-rotation[2]] about Z, by [-rotation[1]] about Y, by [-rotation[0]]
    about X. In the rendered still every object that is not a camera has
    the transform turned about X, then Y, then Z, and a camera has its own;
    when the call returns every object has the transform it had before the
    call (over the real numbers). *)
Theorem render_view_round_trip host s name rotation cam target c :
  (name, rotation) ∈ RENDER_VIEWS →
  scene_camera s = Some c →
  ∃ s' shown,
    render_view host name cam target rotation s = Ok tt s' ∧
    oplog s' = (oplog s ++
      [OpObjectSelectAll DESELECT;
       OpRotate AxX rotation.1.1; OpRotate AxY rotation.1.2;
       OpRotate AxZ rotation.2;
       OpRender;
       OpRotate AxZ (- rotation.2)%R; OpRotate AxY (- rotation.1.2)%R;
       OpRotate AxX (- rotation.1.1)%R])%list ∧
    files s' !! (export_path host +:+ "sphere_" +:+ name +:+ ".png")
      = Some (PngFile shown (Some c)) ∧
    dom (objects s') = dom (objects s) ∧
    ∀ n o, objects s !! n = Some o →
      ∃ o1 o2,
        shown !! n = Some o1 ∧ objects s' !! n = Some o2 ∧
        transform o1 =
          (if bool_decide (obj_type o ≠ CAMERA)
           then turned host rotation (transform o)
           else transform o) ∧
        transform o2 = transform o.
Proof.
  intros _ Hc.
  eexists _, (posed host rotation (objects s)).
  split; [exact (render_view_ok host s name cam target rotation c Hc)|].
  proj. split; [reflexivity|].
  split.
  { rewrite <- path_join_export by reflexivity.
    fold (view_path host name). by rewrite lookup_insert_eq, Hc. }
  rewrite unposed_posed.
  split; [by rewrite !dom_fmap_L|].
  intros n o Ho.
  destruct (posed_lookup host rotation _ _ _ Ho) as (o1 & H1 & Ht).
  exists o1, (pick (set_select false o)).
  split; [done|]. split; [by rewrite !lookup_fmap, Ho|].
  split; [done|]. apply transform_pick.
Qed.

Lemma render_view_round_trip_witness :
  ∃ s' shown,
    render_view host0 "side" "Camera" "core_sphere" (0, radians 90, 0)%R sample_scene
      = Ok tt s' ∧
    oplog s' = (oplog sample_scene ++
      [OpObjectSelectAll DESELECT;
       OpRotate AxX 0%R; OpRotate AxY (radians 90);
       OpRotate AxZ 0%R;
       OpRender;
       OpRotate AxZ (- 0)%R; OpRotate AxY (- radians 90)%R;
       OpRotate AxX (- 0)%R])%list ∧
    files s' !! (export_path host0 +:+ "sphere_" +:+ "side" +:+ ".png")
      = Some (PngFile shown (Some "Camera")) ∧
    dom (objects s') = dom (objects sample_scene) ∧
    ∀ n o, objects sample_scene !! n = Some o →
      ∃ o1 o2,
        shown !! n = Some o1 ∧ objects s' !! n = Some o2 ∧
        transform o1 =
          (if bool_decide (obj_type o ≠ CAMERA)
           then turned host0 (0, radians 90, 0)%R (transform o)
           else transform o) ∧
        transform o2 = transform o.
Proof.
  apply (render_view_round_trip host0 sample_scene "side" (0, radians 90, 0)%R
           "Camera" "core_sphere" "Camera").
  - apply list_elem_of_further, list_elem_of_here.
  - reflexivity.
Defined.

(** C2. The label writer succeeds in every store and writes the file
    [core_sphere_labels.csv] of the export directory; the text of the file
    is the line [object,shape_tag] followed by the four lines
    [core_sphere,sphere_core], [core_sphere_outline,sphere_outline],
    [hoop_Z,hoop_Z], [hoop_X,hoop_X], in this order, each ended by a line
    feed, and nothing more. No other file and no object is touched. *)
Theorem label_file_content host s :
  ∃ s' txt,
    write_labels host s = Ok tt s' ∧
    files s' !! (export_path host +:+ "core_sphere_labels.csv")
      = Some (TextFile txt) ∧
    txt = "object,shape_tag" +:+ nl +:+
          "core_sphere,sphere_core" +:+ nl +:+
          "core_sphere_outline,sphere_outline" +:+ nl +:+
          "hoop_Z,hoop_Z" +:+ nl +:+
          "hoop_X,hoop_X" +:+ nl ∧
    lines txt =
      ["object,shape_tag"; "core_sphere,sphere_core";
       "core_sphere_outline,sphere_outline"; "hoop_Z,hoop_Z"; "hoop_X,hoop_X"] ∧
    csv_records txt =
      [["object"; "shape_tag"];
       ["core_sphere"; "sphere_core"];
       ["core_sphere_outline"; "sphere_outline"];
       ["hoop_Z"; "hoop_Z"];
       ["hoop_X"; "hoop_X"]] ∧
    (∀ p, p ≠ export_path host +:+ "core_sphere_labels.csv" →
          files s' !! p = files s !! p) ∧
    objects s' = objects s.
Proof.
  eexists _, label_text.
  split; [apply write_labels_ok|].
  rewrite <- (path_join_export host "core_sphere_labels.csv") by reflexivity.
  fold (label_path host).
  destruct s as [objs ms mats act md cur cam rp rf fs lg]. st.
  split; [apply lookup_insert_eq|].
  split; [reflexivity|].
  split; [exact label_lines|].
  split; [exact label_records|].
  split; [|reflexivity].
  intros p Hp. by rewrite lookup_insert_ne.
Qed.

















(** ** Further properties of the script *)



Lemma select_loop_missing b l1 n l2 s :
  Forall (λ n, is_Some (objects s !! n)) l1 → objects s !! n = None →
  for_each (l1 ++ n :: l2) (λ obj, select_set obj b) s = Raise (ReferenceError n).
Proof.
  revert s. induction l1 as [|x l IH]; intros s Hl Hn.
  - cbn [app for_each]. unfold select_set, update_object, get_object, mbind, M_bind.
    by rewrite Hn.
  - apply Forall_cons in Hl as [[o Ho] Hl]. cbn [app for_each].
    rewrite (bind_ok _ _ _ _ _ (select_set_ok _ _ _ b Ho)).
    apply IH.
    + destruct s as [objs ms mats act md cur cam rp rf fs lg]; st.
      eapply Forall_impl; [exact Hl|]. intros n' [o' Hn']. cbn [objects] in *.
      destruct (decide (n' = x)) as [->|Hne].
      * rewrite lookup_insert_eq. eauto.
      * rewrite lookup_insert_ne by done. eauto.
    + destruct s as [objs ms mats act md cur cam rp rf fs lg]; st.
      cbn [objects] in *. rewrite lookup_insert_ne; [done|]. intros ->. congruence.
Qed.







(** X2. [export_mesh] stops at the first listed object that is no longer
    in the scene: the call raises and the exporter is not reached. *)
Theorem export_mesh_missing_object host l1 n l2 filename s :
  Forall (λ n, is_Some (objects s !! n)) l1 →
  objects s !! n = None →
  export_mesh host (l1 ++ n :: l2) filename s = Raise (ReferenceError n).
Proof.
  destruct s as [objs ms mats act md cur cam rp rf fs lg]. cbn [objects].
  intros Hl Hn. unfold export_mesh.
  step ltac:(reflexivity). cbn [selects].
  apply bind_raise. apply select_loop_missing; st.
  - apply Forall_forall; intros n' Hn'.
    rewrite Forall_forall in Hl; destruct (Hl n' Hn') as [o Ho].
    rewrite lookup_fmap, Ho; eauto.
  - by rewrite lookup_fmap, Hn.
Qed.

Lemma export_mesh_missing_object_witness :
  export_mesh host0 (["core_sphere"] ++ "hoop_Z" :: ["Camera"]) "part.obj" sample_scene
    = Raise (ReferenceError "hoop_Z").
Proof.
  apply (export_mesh_missing_object host0 ["core_sphere"] "hoop_Z" ["Camera"]
           "part.obj" sample_scene).
  - apply Forall_cons. split; [eexists; reflexivity | apply Forall_nil_2].
  - reflexivity.
Defined.

Lemma render_view_raises host s name cam target rotation :
  scene_camera s = None →
  render_view host name cam target rotation s
    = Raise (RuntimeError "no camera found in scene").
Proof.
  destruct s as [objs ms mats act md cur cm rp rf fs lg]. st. intros ->.
  unfold render_view.
  step ltac:(reflexivity).
  step ltac:(reflexivity).
  step ltac:(idtac; lazymatch goal with |- _ ?S = _ => exact (pick_all_ok S) end).
  step ltac:(apply transform_rotate_ok).
  step ltac:(apply transform_rotate_ok).
  step ltac:(apply transform_rotate_ok).
  step ltac:(reflexivity).
  step ltac:(reflexivity).
  reflexivity.
Qed.

(** X3. [render_view] renders through the scene camera, not through its
    [cam] argument: in a scene whose camera is not set the call raises,
    also when [cam] names a camera object of the scene. *)
Theorem render_view_needs_scene_camera host s name cam target rotation :
  scene_camera s = None →
  render_view host name cam target rotation s
    = Raise (RuntimeError "no camera found in scene").
Proof. apply render_view_raises. Qed.

Lemma render_view_needs_scene_camera_witness :
  render_view host0 "front" "Camera" "core_sphere" (0, 0, 0)%R
      (with_scene_camera None sample_scene)
    = Raise (RuntimeError "no camera found in scene").
Proof.
  apply (render_view_needs_scene_camera host0 (with_scene_camera None sample_scene)).
  reflexivity.
Defined.

(** X4. [render_view] starts by deselecting everything, so what it does
    is the same whatever was selected before the call: two stores that
    differ only in the selection flags of their objects give the same
    result. *)
Theorem render_view_ignores_selection host s objs' name cam target rotation :
  set_select false <$> objs' = set_select false <$> objects s →
  render_view host name cam target rotation (upd_objects (λ _, objs') s)
    = render_view host name cam target rotation s.
Proof.
  intros He.
  destruct (scene_camera s) as [c|] eqn:Hc.
  - rewrite (render_view_ok host s name cam target rotation c Hc).
    rewrite (render_view_ok host _ name cam target rotation c)
      by (by destruct s).
    destruct s as [objs ms mats act md cur cm rp rf fs lg]. st.
    cbn [objects] in He. unfold posed. by rewrite He.
  - rewrite (render_view_raises host s) by done.
    apply render_view_raises. by destruct s.
Qed.

Lemma render_view_ignores_selection_witness :
  render_view host0 "front" "Camera" "core_sphere" (0, 0, 0)%R
      (upd_objects (λ _, set_select false <$> objects sample_scene) sample_scene)
    = render_view host0 "front" "Camera" "core_sphere" (0, 0, 0)%R sample_scene.
Proof.
  apply (render_view_ignores_selection host0 sample_scene
           (set_select false <$> objects sample_scene)).
  cbn [objects sample_scene]. rewrite !fmap_insert, fmap_empty. reflexivity.
Defined.







Lemma add_outline_not_mesh s obj o th :
  objects s !! obj = Some o → (∀ k, data o ≠ DMesh k) →
  add_outline obj th s = Raise (RuntimeError "context is incorrect").
Proof.
  destruct s as [objs ms mats act md cur cam rp rf fs lg]. proj.
  intros Ho Hd.
  set (nc := fresh_string obj objs).
  assert (Hnc : objs !! nc = None) by apply fresh_string_fresh.
  assert (Hne : nc ≠ obj) by (intros E; rewrite E in Hnc; congruence).
  unfold add_outline.
  step ltac:(apply copy_object_ok; eassumption). fold nc.
  step ltac:(apply get_object_ok; st; rewrite lookup_insert_ne by done; eassumption).
  assert (Hcopy : ∀ s', copy_data (data o) s' = Ok (data o) s').
  { intros s'. destruct (data o) as [k| |] eqn:E; [by destruct (Hd k)|done|done]. }
  step ltac:(apply Hcopy).
  step ltac:(eapply update_object_ok; st; apply lookup_insert_eq).
  rewrite insert_insert_eq.
  step ltac:(eapply link_object_ok; st; apply lookup_insert_eq).
  step ltac:(eapply update_object_ok; st; apply lookup_insert_eq).
  rewrite insert_insert_eq.
  step ltac:(eapply set_active_ok; st; apply lookup_insert_eq).
  apply bind_raise.
  unfold mode_set. rewrite bind_assoc_run. unfold get. st.
  rewrite (bind_ok _ _ _ _ _ (get_object_ok _ _ _ (lookup_insert_eq _ _ _))).
  cbn [data set_data set_scale].
  destruct (data o) as [k| |] eqn:E; [by destruct (Hd k)|done|done].
Qed.

Lemma add_outline_no_block s obj o k th :
  objects s !! obj = Some o → data o = DMesh k → meshes s !! k = None →
  add_outline obj th s = Raise (ReferenceError "mesh").
Proof.
  destruct s as [objs ms mats act md cur cam rp rf fs lg]. proj.
  intros Ho Hd Hk.
  set (nc := fresh_string obj objs).
  assert (Hnc : objs !! nc = None) by apply fresh_string_fresh.
  assert (Hne : nc ≠ obj) by (intros E; rewrite E in Hnc; congruence).
  unfold add_outline.
  step ltac:(apply copy_object_ok; eassumption). fold nc.
  step ltac:(apply get_object_ok; st; rewrite lookup_insert_ne by done; eassumption).
  rewrite Hd. apply bind_raise. unfold copy_data. apply bind_raise.
  unfold get_mesh. proj. by rewrite Hk.
Qed.

Lemma add_outline_missing s obj th :
  objects s !! obj = None → add_outline obj th s = Raise (ReferenceError obj).
Proof.
  intros H. unfold add_outline. apply bind_raise. unfold copy_object. by rewrite H.
Qed.

(** X6. [add_outline(obj, thickness)] returns an outline exactly when
    [obj] is in the scene and its data is a mesh block that exists; for a
    source that is missing or is not mesh-backed (a camera, a light) the
    call raises, it does not pass silently. *)
Theorem add_outline_succeeds_iff_mesh s obj th :
  (∃ outline s', add_outline obj th s = Ok outline s') ↔
  (∃ o k m, objects s !! obj = Some o ∧ data o = DMesh k ∧ meshes s !! k = Some m).
Proof.
  split.
  - intros (outline & s' & Hrun).
    destruct (objects s !! obj) as [o|] eqn:Ho.
    + destruct (data o) as [k| |ty e] eqn:Hd.
      * destruct (meshes s !! k) as [m|] eqn:Hk; [eauto 6|].
        rewrite (add_outline_no_block _ _ _ _ _ Ho Hd Hk) in Hrun. discriminate.
      * rewrite (add_outline_not_mesh _ _ _ _ Ho) in Hrun; [discriminate|].
        intros k. by rewrite Hd.
      * rewrite (add_outline_not_mesh _ _ _ _ Ho) in Hrun; [discriminate|].
        intros k. by rewrite Hd.
    + rewrite (add_outline_missing _ _ _ Ho) in Hrun. discriminate.
  - intros (o & k & m & Ho & Hd & Hk).
    eexists _, _. exact (add_outline_ok s obj o k m th Ho Hd Hk).
Qed.

(** X7. The outline [add_outline] returns is a copy of the source object
    in everything but data, scale and display: it has the source's
    location, rotation, parent and custom properties (so a source tagged
    with a [shape_tag] hands the same tag to its outline), is shown in
    front and drawn solid; it is the active object and the scene is back
    in object mode. *)
Theorem add_outline_copies_the_object s obj o k m th :
  objects s !! obj = Some o → data o = DMesh k → meshes s !! k = Some m →
  ∃ outline s' o',
    add_outline obj th s = Ok outline s' ∧
    objects s' !! outline = Some o' ∧
    location o' = location o ∧ rotation o' = rotation o ∧
    parent o' = parent o ∧ props o' = props o ∧ select o' = select o ∧
    show_in_front o' = true ∧ display_type o' = "SOLID" ∧
    active s' = Some outline ∧ mode s' = OBJECT_MODE ∧
    oplog s' = (oplog s ++ [OpModeSet EDIT_MODE; OpMeshSelectAll SELECT;
                            OpFlipNormals; OpModeSet OBJECT_MODE])%list.
Proof.
  intros Ho Hd Hk. eexists _, _, _.
  split; [exact (add_outline_ok s obj o k m th Ho Hd Hk)|]. proj.
  split; [apply lookup_insert_eq|].
  by destruct o.
Qed.

Lemma add_outline_copies_the_object_witness :
  ∃ outline s' o',
    add_outline "core_sphere" 0.04 sample_scene = Ok outline s' ∧
    objects s' !! outline = Some o' ∧
    location o' = location (new_object (DMesh 1) (0, 0, 0)%R id_frame) ∧
    rotation o' = rotation (new_object (DMesh 1) (0, 0, 0)%R id_frame) ∧
    parent o' = parent (new_object (DMesh 1) (0, 0, 0)%R id_frame) ∧
    props o' = props (new_object (DMesh 1) (0, 0, 0)%R id_frame) ∧
    select o' = select (new_object (DMesh 1) (0, 0, 0)%R id_frame) ∧
    show_in_front o' = true ∧ display_type o' = "SOLID" ∧
    active s' = Some outline ∧ mode s' = OBJECT_MODE ∧
    oplog s' = (oplog sample_scene ++
                  [OpModeSet EDIT_MODE; OpMeshSelectAll SELECT;
                   OpFlipNormals; OpModeSet OBJECT_MODE])%list.
Proof.
  apply (add_outline_copies_the_object sample_scene "core_sphere"
           (new_object (DMesh 1) (0, 0, 0)%R id_frame) 1%positive sample_mesh 0.04%R);
    reflexivity.
Defined.




(** X10. [add_hoop] passes no location to the torus operator, so the hoop
    is put at the 3D cursor, with scale 1; the hoop is the active and the
    only selected object; every other object of the scene is deselected
    and keeps its name, data, transform and properties. *)
Theorem add_hoop_at_cursor s radius thickness axis :
  ∃ hoop s' o',
    add_hoop radius thickness axis s = Ok hoop s' ∧
    objects s' !! hoop = Some o' ∧
    location o' = cursor s ∧ scale o' = (1, 1, 1)%R ∧ parent o' = None ∧
    select o' = true ∧ active s' = Some hoop ∧
    dom (objects s') = {[hoop]} ∪ dom (objects s) ∧
    (∀ n o1, objects s !! n = Some o1 →
       ∃ o2, objects s' !! n = Some o2 ∧ select o2 = false ∧
             data o2 = data o1 ∧ transform o2 = transform o1 ∧
             props o2 = props o1) ∧
    mode s' = mode s ∧ files s' = files s ∧ cursor s' = cursor s.
Proof.
  eexists _, _, _. split; [apply add_hoop_ok|]. proj.
  set (n' := fresh_string _ _).
  assert (Hn' : (set_select false <$> objects s) !! n' = None)
    by apply fresh_string_fresh.
  rewrite lookup_fmap, fmap_None in Hn'.
  split; [apply lookup_insert_eq|].
  do 5 (split; [reflexivity|]).
  split; [by rewrite dom_insert_L, !dom_fmap_L|].
  split; [|done].
  intros n o1 Hn.
  assert (n ≠ n') as Hne by (intros ->; congruence).
  rewrite lookup_insert_ne, !lookup_fmap, Hn by done.
  eexists. split; [reflexivity|]. by destruct o1.
Qed.

Lemma add_camera_light_other_name_reused host s c :
  light_defname host ≠ "Light" →
  objects s !! "Camera" = Some c → objects s !! "Light" = None →
  objects s !! light_defname host = None →
  add_camera_light host s = Raise (KeyError "Light").
Proof.
  intros Hn1.
  destruct s as [objs ms mats act md cur cam rp rf fs lg]. proj.
  intros Hc Hl Hf.
  unfold add_camera_light.
  step ltac:(apply has_object_ok). st.
  rewrite Hc, bool_decide_true by eauto. cbn [negb].
  step ltac:(reflexivity).
  step ltac:(eapply object_by_name_ok; st; eassumption).
  step ltac:(reflexivity).
  step ltac:(apply has_object_ok). st.
  rewrite Hl, bool_decide_false by (intros [? ?]; congruence). cbn [negb].
  unfold light_add, add_object, mbind, M_bind, mret, M_ret; st.
  rewrite (fresh_string_free _ _ Hf).
  unfold object_by_name; st.
  assert (Hl' : (<[light_defname host :=
                     new_object (DLight AREA default_energy) (0, -3, 3)%R id_frame]>
                   (set_select false <$> objs)) !! "Light" = None).
  { rewrite lookup_insert_ne by done. by rewrite lookup_fmap, Hl. }
  by rewrite Hl'.
Qed.

(** X11. [add_camera_light] looks the light up under the fixed name
    "Light" after [light_add]. Where the host gives a new area light
    another name and the scene has no object named "Light", the call
    raises [KeyError], whether a camera was there or not. *)
Theorem add_camera_light_light_name host s :
  camera_defname host = "Camera" →
  light_defname host ≠ "Light" → light_defname host ≠ "Camera" →
  objects s !! "Light" = None → objects s !! light_defname host = None →
  add_camera_light host s = Raise (KeyError "Light").
Proof.
  intros Hcam Hn1 Hn2 Hl Hf.
  destruct (objects s !! "Camera") as [c|] eqn:Hc.
  - by eapply add_camera_light_other_name_reused.
  - by apply add_camera_light_other_name.
Qed.

Lemma add_camera_light_light_name_witness :
  add_camera_light host_area sample_scene = Raise (KeyError "Light").
Proof.
  apply (add_camera_light_light_name host_area sample_scene);
    [reflexivity | discriminate | discriminate | reflexivity | reflexivity].
Defined.

(** X12. [add_camera_light] takes whatever object is named "Light" for
    the light: when that object is not a light (a mesh, a camera), setting
    its energy raises. *)
Theorem add_camera_light_light_is_not_a_light host s o :
  camera_defname host = "Camera" →
  objects s !! "Light" = Some o → obj_type o ≠ LIGHT →
  add_camera_light host s = Raise (AttributeError "energy").
Proof.
  intros Hcam.
  destruct s as [objs ms mats act md cur cam rp rf fs lg]. proj.
  intros Hl Hty.
  assert (Hraise : ∀ s', objects s' !! "Light" = Some (set_select (select o) o) ∨
                         objects s' !! "Light" = Some (set_select false o) →
            set_light_energy "Light" 500 s' = Raise (AttributeError "energy")).
  { intros s' H. unfold set_light_energy.
    destruct H as [H|H];
      rewrite (bind_ok _ _ _ _ _ (get_object_ok _ _ _ H));
      cbn [data set_select]; unfold obj_type in Hty;
      by destruct (data o). }
  unfold add_camera_light.
  step ltac:(apply has_object_ok). st.
  destruct (objs !! "Camera") as [c|] eqn:Hc.
  - rewrite bool_decide_true by eauto. cbn [negb].
    step ltac:(reflexivity).
    step ltac:(eapply object_by_name_ok; st; eassumption).
    step ltac:(reflexivity).
    step ltac:(apply has_object_ok). st.
    rewrite Hl, bool_decide_true by eauto. cbn [negb].
    step ltac:(reflexivity).
    step ltac:(eapply object_by_name_ok; st; eassumption).
    apply bind_raise. apply Hraise. left. proj. rewrite Hl. by destruct o.
  - rewrite bool_decide_false by (intros [? ?]; congruence). cbn [negb].
    step ltac:(apply (camera_add_ok host Hcam); st; assumption). unfold added; st.
    step ltac:(eapply object_by_name_ok; st; apply lookup_insert_eq).
    step ltac:(reflexivity).
    step ltac:(apply has_object_ok). st.
    set (cm := new_object _ _ _).
    assert (Hl' : (<["Camera" := cm]> (set_select false <$> objs)) !! "Light"
                  = Some (set_select false o)).
    { rewrite lookup_insert_ne by done. by rewrite lookup_fmap, Hl. }
    rewrite Hl', bool_decide_true by eauto. cbn [negb].
    step ltac:(reflexivity).
    step ltac:(eapply object_by_name_ok; st; eassumption).
    apply bind_raise. apply Hraise. right. proj. exact Hl'.
Qed.

Lemma add_camera_light_light_is_not_a_light_witness :
  add_camera_light host0 mislabelled_scene = Raise (AttributeError "energy").
Proof.
  apply (add_camera_light_light_is_not_a_light host0 mislabelled_scene
           (new_object (DMesh 1) (0, 0, 0)%R id_frame));
    [reflexivity | reflexivity | discriminate].
Defined.

(** X13. [make_material] never reuses a material: two calls in a row with
    the same name and colour give two different materials with the same
    settings, and every material that was there before keeps its name and
    settings. *)
Theorem make_material_twice s name col transparent :
  ∃ mat1 mat2 s',
    (mat1 ← make_material name col transparent;
     mat2 ← make_material name col transparent;
     mret (mat1, mat2)) s = Ok (mat1, mat2) s' ∧
    mat1 ≠ mat2 ∧
    materials s !! mat1 = None ∧ materials s !! mat2 = None ∧
    materials s' !! mat1 = Some (material_of col transparent) ∧
    materials s' !! mat2 = Some (material_of col transparent) ∧
    (∀ n x, materials s !! n = Some x → materials s' !! n = Some x) ∧
    size (materials s') = 2 + size (materials s) ∧
    objects s' = objects s ∧ meshes s' = meshes s.
Proof.
  destruct s as [objs ms mats act md cur cam rp rf fs lg]. proj.
  set (m1 := fresh_string name mats).
  set (m2 := fresh_string name (<[m1 := material_of col transparent]> mats)).
  assert (H1 : mats !! m1 = None) by apply fresh_string_fresh.
  assert (H2 : (<[m1 := material_of col transparent]> mats) !! m2 = None)
    by apply fresh_string_fresh.
  assert (Hne : m1 ≠ m2).
  { intros E. rewrite <- E, lookup_insert_eq in H2. discriminate. }
  rewrite lookup_insert_ne in H2 by done.
  exists m1, m2. eexists.
  split.
  { step ltac:(apply make_material_ok). fold m1.
    step ltac:(apply make_material_ok). fold m2. reflexivity. }
  proj.
  split; [done|]. split; [done|]. split; [done|].
  split; [by rewrite lookup_insert_ne, lookup_insert_eq|].
  split; [by rewrite lookup_insert_eq|].
  split.
  { intros n x Hn.
    rewrite !lookup_insert_ne; [done| |]; intros ->; congruence. }
  split; [|done].
  rewrite !map_size_insert_None; [done|done|].
  by rewrite lookup_insert_ne.
Qed.








Section SceneFacts.
Variable host : Host.
Hypothesis Hcam : camera_defname host = "Camera".
Hypothesis Hlight : light_defname host = "Light".

End SceneFacts.















